(** * mstdn-ebooks reply service: a shallow embedding of [reply.py]

    The development follows the source file top to bottom: the data the
    bot reads from the fediverse client (notifications, statuses, thread
    contexts), the text helpers ([extract_toot], the escaping done in
    [reply]), the thread gate [check_thread_length], and then the
    effectful pipeline ([process_notification], [process_command],
    [reply], [run]) as state-and-exception passing over a log of the
    calls the bot makes. *)

From Stdlib Require Import String Ascii.
From stdpp Require Import base decidable numbers list gmap.
From Equations Require Import Equations.

#[local] Open Scope Z_scope.

(** ** Text

    A Python [str] is a sequence of Unicode code points. *)

Abbreviation pystr := (list N).

(** A literal whose characters are all ASCII. *)
Definition str (s : string) : pystr :=
  List.map N_of_ascii (list_ascii_of_string s).

Definition AT : N := 64%N.            (* '@' *)
Definition ZWSP : N := 8203%N.        (* U+200B, zero width space *)
Definition CROSS_MARK : pystr := [10060%N].   (* U+274C *)
Definition CHECK_MARK : pystr := [9989%N].    (* U+2705 *)

(** What [\s] matches in a [str] pattern: the code points for which
    [str.isspace] holds. *)
Definition is_space (c : N) : bool :=
  ((9 <=? c) && (c <=? 13) || (28 <=? c) && (c <=? 32)
   || (c =? 133) || (c =? 160) || (c =? 5760)
   || (8192 <=? c) && (c <=? 8202)
   || (c =? 8232) || (c =? 8233) || (c =? 8239) || (c =? 8287)
   || (c =? 12288))%N.

(** [span p l]: the longest prefix of [l] satisfying [p], and the rest. *)
Fixpoint span {A} (p : A -> bool) (l : list A) : list A * list A :=
  match l with
  | [] => ([], [])
  | x :: l' =>
      if p x then let '(run, rest) := span p l' in (x :: run, rest)
      else ([], l)
  end.

(** [re.sub(r"^@\S+\s", r"", text)].  Without [re.MULTILINE] the anchor
    only holds at offset 0, so at most one match is removed: an ['@'],
    the longest non-empty run of non-space characters after it (a shorter
    run would be followed by a non-space character, so backtracking never
    helps), and the one space character that ends the run. *)
Definition sub_initial_mention (text : pystr) : pystr :=
  match text with
  | c :: after_at =>
      if (c =? AT)%N then
        match span (fun c => negb (is_space c)) after_at with
        | (_ :: _, _ :: rest) => rest
        | _ => text
        end
      else text
  | [] => text
  end.

Definition is_ascii (c : N) : bool := (c <? 128)%N.

Definition ascii_lower (c : N) : N :=
  if ((65 <=? c) && (c <=? 90))%N then (c + 32)%N else c.

(** *** [str.lower]

    The case tables are those of the Unicode character database 14.0, as
    CPython 3.11 ships it.  A row [(lo, hi, step, target)] of
    [LOWER_ROWS] maps the code points [lo], [lo + step], ... up to [hi]
    to [target], [target + step], ...; a code point in no row is its own
    lowercase. *)
Definition LOWER_ROWS : list (N * N * N * N) :=
  [
   (65, 90, 1, 97); (192, 214, 1, 224); (216, 222, 1, 248);
   (256, 302, 2, 257); (306, 310, 2, 307); (313, 327, 2, 314);
   (330, 374, 2, 331); (376, 376, 1, 255); (377, 381, 2, 378);
   (385, 385, 1, 595); (386, 388, 2, 387); (390, 390, 1, 596);
   (391, 391, 1, 392); (393, 394, 1, 598); (395, 395, 1, 396);
   (398, 398, 1, 477); (399, 399, 1, 601); (400, 400, 1, 603);
   (401, 401, 1, 402); (403, 403, 1, 608); (404, 404, 1, 611);
   (406, 406, 1, 617); (407, 407, 1, 616); (408, 408, 1, 409);
   (412, 412, 1, 623); (413, 413, 1, 626); (415, 415, 1, 629);
   (416, 420, 2, 417); (422, 422, 1, 640); (423, 423, 1, 424);
   (425, 425, 1, 643); (428, 428, 1, 429); (430, 430, 1, 648);
   (431, 431, 1, 432); (433, 434, 1, 650); (435, 437, 2, 436);
   (439, 439, 1, 658); (440, 440, 1, 441); (444, 444, 1, 445);
   (452, 452, 1, 454); (453, 453, 1, 454); (455, 455, 1, 457);
   (456, 456, 1, 457); (458, 458, 1, 460); (459, 475, 2, 460);
   (478, 494, 2, 479); (497, 497, 1, 499); (498, 500, 2, 499);
   (502, 502, 1, 405); (503, 503, 1, 447); (504, 542, 2, 505);
   (544, 544, 1, 414); (546, 562, 2, 547); (570, 570, 1, 11365);
   (571, 571, 1, 572); (573, 573, 1, 410); (574, 574, 1, 11366);
   (577, 577, 1, 578); (579, 579, 1, 384); (580, 580, 1, 649);
   (581, 581, 1, 652); (582, 590, 2, 583); (880, 882, 2, 881);
   (886, 886, 1, 887); (895, 895, 1, 1011); (902, 902, 1, 940);
   (904, 906, 1, 941); (908, 908, 1, 972); (910, 911, 1, 973);
   (913, 929, 1, 945); (932, 939, 1, 964); (975, 975, 1, 983);
   (984, 1006, 2, 985); (1012, 1012, 1, 952); (1015, 1015, 1, 1016);
   (1017, 1017, 1, 1010); (1018, 1018, 1, 1019); (1021, 1023, 1, 891);
   (1024, 1039, 1, 1104); (1040, 1071, 1, 1072); (1120, 1152, 2, 1121);
   (1162, 1214, 2, 1163); (1216, 1216, 1, 1231); (1217, 1229, 2, 1218);
   (1232, 1326, 2, 1233); (1329, 1366, 1, 1377); (4256, 4293, 1, 11520);
   (4295, 4295, 1, 11559); (4301, 4301, 1, 11565); (5024, 5103, 1, 43888);
   (5104, 5109, 1, 5112); (7312, 7354, 1, 4304); (7357, 7359, 1, 4349);
   (7680, 7828, 2, 7681); (7838, 7838, 1, 223); (7840, 7934, 2, 7841);
   (7944, 7951, 1, 7936); (7960, 7965, 1, 7952); (7976, 7983, 1, 7968);
   (7992, 7999, 1, 7984); (8008, 8013, 1, 8000); (8025, 8031, 2, 8017);
   (8040, 8047, 1, 8032); (8072, 8079, 1, 8064); (8088, 8095, 1, 8080);
   (8104, 8111, 1, 8096); (8120, 8121, 1, 8112); (8122, 8123, 1, 8048);
   (8124, 8124, 1, 8115); (8136, 8139, 1, 8050); (8140, 8140, 1, 8131);
   (8152, 8153, 1, 8144); (8154, 8155, 1, 8054); (8168, 8169, 1, 8160);
   (8170, 8171, 1, 8058); (8172, 8172, 1, 8165); (8184, 8185, 1, 8056);
   (8186, 8187, 1, 8060); (8188, 8188, 1, 8179); (8486, 8486, 1, 969);
   (8490, 8490, 1, 107); (8491, 8491, 1, 229); (8498, 8498, 1, 8526);
   (8544, 8559, 1, 8560); (8579, 8579, 1, 8580); (9398, 9423, 1, 9424);
   (11264, 11311, 1, 11312); (11360, 11360, 1, 11361); (11362, 11362, 1, 619);
   (11363, 11363, 1, 7549); (11364, 11364, 1, 637); (11367, 11371, 2, 11368);
   (11373, 11373, 1, 593); (11374, 11374, 1, 625); (11375, 11375, 1, 592);
   (11376, 11376, 1, 594); (11378, 11378, 1, 11379); (11381, 11381, 1, 11382);
   (11390, 11391, 1, 575); (11392, 11490, 2, 11393); (11499, 11501, 2, 11500);
   (11506, 11506, 1, 11507); (42560, 42604, 2, 42561); (42624, 42650, 2, 42625);
   (42786, 42798, 2, 42787); (42802, 42862, 2, 42803); (42873, 42875, 2, 42874);
   (42877, 42877, 1, 7545); (42878, 42886, 2, 42879); (42891, 42891, 1, 42892);
   (42893, 42893, 1, 613); (42896, 42898, 2, 42897); (42902, 42920, 2, 42903);
   (42922, 42922, 1, 614); (42923, 42923, 1, 604); (42924, 42924, 1, 609);
   (42925, 42925, 1, 620); (42926, 42926, 1, 618); (42928, 42928, 1, 670);
   (42929, 42929, 1, 647); (42930, 42930, 1, 669); (42931, 42931, 1, 43859);
   (42932, 42946, 2, 42933); (42948, 42948, 1, 42900); (42949, 42949, 1, 642);
   (42950, 42950, 1, 7566); (42951, 42953, 2, 42952); (42960, 42960, 1, 42961);
   (42966, 42968, 2, 42967); (42997, 42997, 1, 42998); (65313, 65338, 1, 65345);
   (66560, 66599, 1, 66600); (66736, 66771, 1, 66776); (66928, 66938, 1, 66967);
   (66940, 66954, 1, 66979); (66956, 66962, 1, 66995); (66964, 66965, 1, 67003);
   (68736, 68786, 1, 68800); (71840, 71871, 1, 71872); (93760, 93791, 1, 93792);
   (125184, 125217, 1, 125218)
  ]%N.

(** The code points with the property Cased. *)
Definition CASED_RANGES : list (N * N) :=
  [
   (65, 90); (97, 122); (170, 170); (181, 181); (186, 186);
   (192, 214); (216, 246); (248, 442); (444, 447); (452, 659);
   (661, 696); (704, 705); (736, 740); (837, 837); (880, 883);
   (886, 887); (890, 893); (895, 895); (902, 902); (904, 906);
   (908, 908); (910, 929); (931, 1013); (1015, 1153); (1162, 1327);
   (1329, 1366); (1376, 1416); (4256, 4293); (4295, 4295); (4301, 4301);
   (4304, 4346); (4349, 4351); (5024, 5109); (5112, 5117); (7296, 7304);
   (7312, 7354); (7357, 7359); (7424, 7615); (7680, 7957); (7960, 7965);
   (7968, 8005); (8008, 8013); (8016, 8023); (8025, 8025); (8027, 8027);
   (8029, 8029); (8031, 8061); (8064, 8116); (8118, 8124); (8126, 8126);
   (8130, 8132); (8134, 8140); (8144, 8147); (8150, 8155); (8160, 8172);
   (8178, 8180); (8182, 8188); (8305, 8305); (8319, 8319); (8336, 8348);
   (8450, 8450); (8455, 8455); (8458, 8467); (8469, 8469); (8473, 8477);
   (8484, 8484); (8486, 8486); (8488, 8488); (8490, 8493); (8495, 8500);
   (8505, 8505); (8508, 8511); (8517, 8521); (8526, 8526); (8544, 8575);
   (8579, 8580); (9398, 9449); (11264, 11492); (11499, 11502); (11506, 11507);
   (11520, 11557); (11559, 11559); (11565, 11565); (42560, 42605); (42624, 42653);
   (42786, 42887); (42891, 42894); (42896, 42954); (42960, 42961); (42963, 42963);
   (42965, 42969); (42997, 42998); (43000, 43002); (43824, 43866); (43868, 43880);
   (43888, 43967); (64256, 64262); (64275, 64279); (65313, 65338); (65345, 65370);
   (66560, 66639); (66736, 66771); (66776, 66811); (66928, 66938); (66940, 66954);
   (66956, 66962); (66964, 66965); (66967, 66977); (66979, 66993); (66995, 67001);
   (67003, 67004); (67456, 67456); (67459, 67461); (67463, 67504); (67506, 67514);
   (68736, 68786); (68800, 68850); (71840, 71903); (93760, 93823); (119808, 119892);
   (119894, 119964); (119966, 119967); (119970, 119970); (119973, 119974); (119977, 119980);
   (119982, 119993); (119995, 119995); (119997, 120003); (120005, 120069); (120071, 120074);
   (120077, 120084); (120086, 120092); (120094, 120121); (120123, 120126); (120128, 120132);
   (120134, 120134); (120138, 120144); (120146, 120485); (120488, 120512); (120514, 120538);
   (120540, 120570); (120572, 120596); (120598, 120628); (120630, 120654); (120656, 120686);
   (120688, 120712); (120714, 120744); (120746, 120770); (120772, 120779); (122624, 122633);
   (122635, 122654); (125184, 125251); (127280, 127305); (127312, 127337); (127344, 127369)
  ]%N.

(** The code points with the property Case_Ignorable. *)
Definition CASE_IGNORABLE_RANGES : list (N * N) :=
  [
   (39, 39); (46, 46); (58, 58); (94, 94); (96, 96);
   (168, 168); (173, 173); (175, 175); (180, 180); (183, 184);
   (688, 879); (884, 885); (890, 890); (900, 901); (903, 903);
   (1155, 1161); (1369, 1369); (1375, 1375); (1425, 1469); (1471, 1471);
   (1473, 1474); (1476, 1477); (1479, 1479); (1524, 1524); (1536, 1541);
   (1552, 1562); (1564, 1564); (1600, 1600); (1611, 1631); (1648, 1648);
   (1750, 1757); (1759, 1768); (1770, 1773); (1807, 1807); (1809, 1809);
   (1840, 1866); (1958, 1968); (2027, 2037); (2042, 2042); (2045, 2045);
   (2070, 2093); (2137, 2139); (2184, 2184); (2192, 2193); (2200, 2207);
   (2249, 2306); (2362, 2362); (2364, 2364); (2369, 2376); (2381, 2381);
   (2385, 2391); (2402, 2403); (2417, 2417); (2433, 2433); (2492, 2492);
   (2497, 2500); (2509, 2509); (2530, 2531); (2558, 2558); (2561, 2562);
   (2620, 2620); (2625, 2626); (2631, 2632); (2635, 2637); (2641, 2641);
   (2672, 2673); (2677, 2677); (2689, 2690); (2748, 2748); (2753, 2757);
   (2759, 2760); (2765, 2765); (2786, 2787); (2810, 2815); (2817, 2817);
   (2876, 2876); (2879, 2879); (2881, 2884); (2893, 2893); (2901, 2902);
   (2914, 2915); (2946, 2946); (3008, 3008); (3021, 3021); (3072, 3072);
   (3076, 3076); (3132, 3132); (3134, 3136); (3142, 3144); (3146, 3149);
   (3157, 3158); (3170, 3171); (3201, 3201); (3260, 3260); (3263, 3263);
   (3270, 3270); (3276, 3277); (3298, 3299); (3328, 3329); (3387, 3388);
   (3393, 3396); (3405, 3405); (3426, 3427); (3457, 3457); (3530, 3530);
   (3538, 3540); (3542, 3542); (3633, 3633); (3636, 3642); (3654, 3662);
   (3761, 3761); (3764, 3772); (3782, 3782); (3784, 3789); (3864, 3865);
   (3893, 3893); (3895, 3895); (3897, 3897); (3953, 3966); (3968, 3972);
   (3974, 3975); (3981, 3991); (3993, 4028); (4038, 4038); (4141, 4144);
   (4146, 4151); (4153, 4154); (4157, 4158); (4184, 4185); (4190, 4192);
   (4209, 4212); (4226, 4226); (4229, 4230); (4237, 4237); (4253, 4253);
   (4348, 4348); (4957, 4959); (5906, 5908); (5938, 5939); (5970, 5971);
   (6002, 6003); (6068, 6069); (6071, 6077); (6086, 6086); (6089, 6099);
   (6103, 6103); (6109, 6109); (6155, 6159); (6211, 6211); (6277, 6278);
   (6313, 6313); (6432, 6434); (6439, 6440); (6450, 6450); (6457, 6459);
   (6679, 6680); (6683, 6683); (6742, 6742); (6744, 6750); (6752, 6752);
   (6754, 6754); (6757, 6764); (6771, 6780); (6783, 6783); (6823, 6823);
   (6832, 6862); (6912, 6915); (6964, 6964); (6966, 6970); (6972, 6972);
   (6978, 6978); (7019, 7027); (7040, 7041); (7074, 7077); (7080, 7081);
   (7083, 7085); (7142, 7142); (7144, 7145); (7149, 7149); (7151, 7153);
   (7212, 7219); (7222, 7223); (7288, 7293); (7376, 7378); (7380, 7392);
   (7394, 7400); (7405, 7405); (7412, 7412); (7416, 7417); (7468, 7530);
   (7544, 7544); (7579, 7679); (8125, 8125); (8127, 8129); (8141, 8143);
   (8157, 8159); (8173, 8175); (8189, 8190); (8203, 8207); (8216, 8217);
   (8228, 8228); (8231, 8231); (8234, 8238); (8288, 8292); (8294, 8303);
   (8305, 8305); (8319, 8319); (8336, 8348); (8400, 8432); (11388, 11389);
   (11503, 11505); (11631, 11631); (11647, 11647); (11744, 11775); (11823, 11823);
   (12293, 12293); (12330, 12333); (12337, 12341); (12347, 12347); (12441, 12446);
   (12540, 12542); (40981, 40981); (42232, 42237); (42508, 42508); (42607, 42610);
   (42612, 42621); (42623, 42623); (42652, 42655); (42736, 42737); (42752, 42785);
   (42864, 42864); (42888, 42890); (42994, 42996); (43000, 43001); (43010, 43010);
   (43014, 43014); (43019, 43019); (43045, 43046); (43052, 43052); (43204, 43205);
   (43232, 43249); (43263, 43263); (43302, 43309); (43335, 43345); (43392, 43394);
   (43443, 43443); (43446, 43449); (43452, 43453); (43471, 43471); (43493, 43494);
   (43561, 43566); (43569, 43570); (43573, 43574); (43587, 43587); (43596, 43596);
   (43632, 43632); (43644, 43644); (43696, 43696); (43698, 43700); (43703, 43704);
   (43710, 43711); (43713, 43713); (43741, 43741); (43756, 43757); (43763, 43764);
   (43766, 43766); (43867, 43871); (43881, 43883); (44005, 44005); (44008, 44008);
   (44013, 44013); (64286, 64286); (64434, 64450); (65024, 65039); (65043, 65043);
   (65056, 65071); (65106, 65106); (65109, 65109); (65279, 65279); (65287, 65287);
   (65294, 65294); (65306, 65306); (65342, 65342); (65344, 65344); (65392, 65392);
   (65438, 65439); (65507, 65507); (65529, 65531); (66045, 66045); (66272, 66272);
   (66422, 66426); (67456, 67461); (67463, 67504); (67506, 67514); (68097, 68099);
   (68101, 68102); (68108, 68111); (68152, 68154); (68159, 68159); (68325, 68326);
   (68900, 68903); (69291, 69292); (69446, 69456); (69506, 69509); (69633, 69633);
   (69688, 69702); (69744, 69744); (69747, 69748); (69759, 69761); (69811, 69814);
   (69817, 69818); (69821, 69821); (69826, 69826); (69837, 69837); (69888, 69890);
   (69927, 69931); (69933, 69940); (70003, 70003); (70016, 70017); (70070, 70078);
   (70089, 70092); (70095, 70095); (70191, 70193); (70196, 70196); (70198, 70199);
   (70206, 70206); (70367, 70367); (70371, 70378); (70400, 70401); (70459, 70460);
   (70464, 70464); (70502, 70508); (70512, 70516); (70712, 70719); (70722, 70724);
   (70726, 70726); (70750, 70750); (70835, 70840); (70842, 70842); (70847, 70848);
   (70850, 70851); (71090, 71093); (71100, 71101); (71103, 71104); (71132, 71133);
   (71219, 71226); (71229, 71229); (71231, 71232); (71339, 71339); (71341, 71341);
   (71344, 71349); (71351, 71351); (71453, 71455); (71458, 71461); (71463, 71467);
   (71727, 71735); (71737, 71738); (71995, 71996); (71998, 71998); (72003, 72003);
   (72148, 72151); (72154, 72155); (72160, 72160); (72193, 72202); (72243, 72248);
   (72251, 72254); (72263, 72263); (72273, 72278); (72281, 72283); (72330, 72342);
   (72344, 72345); (72752, 72758); (72760, 72765); (72767, 72767); (72850, 72871);
   (72874, 72880); (72882, 72883); (72885, 72886); (73009, 73014); (73018, 73018);
   (73020, 73021); (73023, 73029); (73031, 73031); (73104, 73105); (73109, 73109);
   (73111, 73111); (73459, 73460); (78896, 78904); (92912, 92916); (92976, 92982);
   (92992, 92995); (94031, 94031); (94095, 94111); (94176, 94177); (94179, 94180);
   (110576, 110579); (110581, 110587); (110589, 110590); (113821, 113822); (113824, 113827);
   (118528, 118573); (118576, 118598); (119143, 119145); (119155, 119170); (119173, 119179);
   (119210, 119213); (119362, 119364); (121344, 121398); (121403, 121452); (121461, 121461);
   (121476, 121476); (121499, 121503); (121505, 121519); (122880, 122886); (122888, 122904);
   (122907, 122913); (122915, 122916); (122918, 122922); (123184, 123197); (123566, 123566);
   (123628, 123631); (125136, 125142); (125252, 125259); (127995, 127999); (917505, 917505);
   (917536, 917631); (917760, 917999)
  ]%N.

Definition in_ranges (ranges : list (N * N)) (c : N) : bool :=
  existsb (fun '(lo, hi) => (lo <=? c) && (c <=? hi))%N ranges.

Definition is_cased (c : N) : bool := in_ranges CASED_RANGES c.
Definition is_case_ignorable (c : N) : bool := in_ranges CASE_IGNORABLE_RANGES c.

Fixpoint lookup_lower (rows : list (N * N * N * N)) (c : N) : option N :=
  match rows with
  | [] => None
  | (lo, hi, step, target) :: rows' =>
      if ((lo <=? c) && (c <=? hi) && ((c - lo) mod step =? 0))%N
      then Some (target + (c - lo))%N
      else lookup_lower rows' c
  end.

(** The full lowercase mapping of one code point; U+0130 is the one code
    point whose lowercase has two. *)
Definition to_lower_full (c : N) : pystr :=
  if (c =? 304)%N then [105%N; 775%N]
  else match lookup_lower LOWER_ROWS c with
       | Some target => [target]
       | None => [c]
       end.

Definition CAPITAL_SIGMA : N := 931%N.       (* U+03A3 *)
Definition FINAL_SIGMA : N := 962%N.         (* U+03C2 *)
Definition SMALL_SIGMA : N := 963%N.         (* U+03C3 *)

Fixpoint skip_case_ignorable (text : pystr) : pystr :=
  match text with
  | c :: text' => if is_case_ignorable c then skip_case_ignorable text' else text
  | [] => []
  end.

(** A capital sigma is in final position when, case-ignorable code
    points aside, a cased code point comes before it and none comes after
    it.  [before] holds the code points before the sigma, nearest
    first. *)
Definition handle_capital_sigma (before after : pystr) : N :=
  let final_sigma :=
    match skip_case_ignorable before with
    | c :: _ =>
        is_cased c
        && match skip_case_ignorable after with
           | c' :: _ => negb (is_cased c')
           | [] => true
           end
    | [] => false
    end in
  if final_sigma then FINAL_SIGMA else SMALL_SIGMA.

Definition lower_ucs4 (before : pystr) (c : N) (after : pystr) : pystr :=
  if (c =? CAPITAL_SIGMA)%N then [handle_capital_sigma before after]
  else to_lower_full c.

(** The loop of [str.lower] over a text that is not all ASCII. *)
Fixpoint do_lower (before text : pystr) : pystr :=
  match text with
  | c :: after => lower_ucs4 before c after ++ do_lower (c :: before) after
  | [] => []
  end.

Definition unicode_lower (text : pystr) : pystr := do_lower [] text.

(** [toot.replace("@", "@\u200b")] *)
Definition replace_at (toot : pystr) : pystr :=
  flat_map (fun c => if (c =? AT)%N then [AT; ZWSP] else [c]) toot.

(** Every ['@'] of a text is directly followed by U+200B. *)
Definition at_escaped (text : pystr) : Prop :=
  forall i : nat, text !! i = Some AT -> text !! S i = Some ZWSP.

(** [str(n)] for a non-negative [int]. *)
Fixpoint uint_digits (d : Decimal.uint) : pystr :=
  match d with
  | Decimal.Nil => []
  | Decimal.D0 d => 48%N :: uint_digits d
  | Decimal.D1 d => 49%N :: uint_digits d
  | Decimal.D2 d => 50%N :: uint_digits d
  | Decimal.D3 d => 51%N :: uint_digits d
  | Decimal.D4 d => 52%N :: uint_digits d
  | Decimal.D5 d => 53%N :: uint_digits d
  | Decimal.D6 d => 54%N :: uint_digits d
  | Decimal.D7 d => 55%N :: uint_digits d
  | Decimal.D8 d => 56%N :: uint_digits d
  | Decimal.D9 d => 57%N :: uint_digits d
  end.

Definition str_of_nat (n : nat) : pystr := uint_digits (Nat.to_uint n).

(** ** Data read from the client *)

Abbreviation ID := (list N).

Record Account := { acc_id : ID; acc_acct : pystr }.

Record Post := { post_id : ID; post_account : Account }.

Record Status := {
  st_id : ID;
  st_content : pystr;
  st_in_reply_to_id : option ID   (* [None] when the status is no reply *)
}.

Record Notification := { notif_account : Account; notif_status : Status }.

Record Context := { ancestors : list Post }.

(** The configuration keys [reply.py] reads. *)
Record Config := {
  max_thread_length : Z;
  strip_paired_punctuation : bool;
  cw : option pystr
}.

(** The attributes of a [ReplyBot] once [run] has set [me] and
    [follows]. *)
Record ReplyBot := {
  cfg : Config;
  me : ID;
  follows : gset ID
}.

(** ** The thread gate *)

(** The [for] loop of [check_thread_length], with [posts] as the
    accumulator; the [return True] leaves the loop early. *)
Fixpoint check_thread_loop (self : ReplyBot) (posts : Z) (l : list Post) : bool :=
  match l with
  | [] => false
  | post :: l' =>
      let posts :=
        if bool_decide (acc_id (post_account post) = me self)
        then posts + 1 else posts in
      if bool_decide (posts >= max_thread_length (cfg self)) then true
      else check_thread_loop self posts l'
  end.

Definition check_thread_length (self : ReplyBot) (context : Context) : bool :=
  check_thread_loop self 0 (ancestors context).

(** The gate as the specification words it: the number of posts by the
    bot among the ancestors scanned so far, and whether that running
    count reaches the threshold at some step of the scan. *)
Definition own_posts (own : ID) (l : list Post) : Z :=
  Z.of_nat (length (filter (fun post => acc_id (post_account post) = own) l)).

Definition running_count_reaches (own : ID) (maxLength : Z) (l : list Post) : Prop :=
  exists k : nat,
    (1 <= k <= length l)%nat /\ own_posts own (take k l) >= maxLength.

(** ** Text helpers that live outside [reply.py]

    [utils.extract_post_content] and [utils.remove_mentions] belong to
    [third_party/utils.py].  [PAIRED_PUNCTUATION] is a module-level name
    that [reply.py] reads but neither defines nor imports: [None] stands
    for the name being unbound at the time of the call, [Some sub] for a
    compiled pattern whose [sub("", _)] is [sub]. *)
Class Utils := {
  extract_post_content : pystr -> pystr;
  remove_mentions : Config -> pystr -> pystr;
  PAIRED_PUNCTUATION : option (pystr -> pystr)
}.

(** ** Exceptions, the call log and the outside world *)

Inductive exc :=
| BadResponse                      (* [pleroma.BadResponse]: HTTP 500 *)
| BadRequest (msg : pystr)         (* [pleroma.BadRequest]; [msg] is [args[0]] *)
| UnboundLocalError (name : string)
| NameError (name : string)
| OtherError (cls : string).       (* any other exception class *)

Inductive Result (A : Type) :=
| Ok (a : A)
| Raise (e : exc).
Arguments Ok {A} a.
Arguments Raise {A} e.

(** A call handed to [tg.start_soon]. *)
Inductive task :=
| StartReact (id : ID) (glyph : pystr)
| StartReply (to_status : Status) (content : pystr) (cw : option pystr).

(** One entry per call the bot makes on a collaborator, in the order the
    calls are made.  [TaskGroup] stands for one [anyio] task group and
    lists the calls handed to [start_soon], in the order they were handed
    over; how the group schedules them is up to [anyio]. *)
Inductive event :=
| CallMe
| CallFollowing (account_id : ID)
| CallStatusContext (id : ID)
| CallSleep (delay : nat)
| CallPrint (msg : pystr)
| CallReact (id : ID) (glyph : pystr)
| CallPin (id : ID)
| CallUnpin (id : ID)
| CallReply (to_status : Status) (content : pystr) (cw : option pystr)
| CallMakePost (cfg : Config)
| TaskGroup (tasks : list task).

Abbreviation World := (list event).

Definition is_status_context (e : event) : bool :=
  match e with CallStatusContext _ => true | _ => false end.
Definition is_react (e : event) : bool :=
  match e with CallReact _ _ => true | _ => false end.
Definition is_pin (e : event) : bool :=
  match e with CallPin _ | CallUnpin _ => true | _ => false end.
Definition is_reply (e : event) : bool :=
  match e with CallReply _ _ _ => true | _ => false end.
Definition is_make_post (e : event) : bool :=
  match e with CallMakePost _ => true | _ => false end.
Definition is_task_group (e : event) : bool :=
  match e with TaskGroup _ => true | _ => false end.
Definition is_print (e : event) : bool :=
  match e with CallPrint _ => true | _ => false end.
Definition is_sleep (e : event) : bool :=
  match e with CallSleep _ => true | _ => false end.

(** How many calls of one kind the log holds. *)
Definition calls (kind : event -> bool) (w : World) : nat :=
  length (List.filter kind w).

(** What the collaborators answer.  The first argument of each field is
    the number of earlier calls of the same kind, so that an answer may
    change from one attempt to the next. *)
Record Env := {
  me_result : Result Account;
  following_result : ID -> Result (list Account);
  status_context_result : nat -> ID -> Result Context;
  react_result : nat -> ID -> pystr -> Result unit;
  pin_result : nat -> ID -> Result unit;
  unpin_result : nat -> ID -> Result unit;
  reply_result : nat -> Status -> pystr -> option pystr -> Result unit;
  make_post_result : nat -> Config -> Result pystr;
  task_group_result : nat -> list task -> Result unit
}.

(** A coroutine of the bot: it reads the log so far, and returns a value
    or raises, together with the extended log. *)
Definition M (A : Type) : Type := World -> Result A * World.

Definition ret {A} (a : A) : M A := fun w => (Ok a, w).

Definition raise {A} (e : exc) : M A := fun w => (Raise e, w).

Definition bind {A B} (m : M A) (k : A -> M B) : M B :=
  fun w =>
    match m w with
    | (Ok a, w') => k a w'
    | (Raise e, w') => (Raise e, w')
    end.

#[global] Instance M_ret : MRet M := @ret.
#[global] Instance M_bind : MBind M := fun A B k m => bind m k.

(** A call on a collaborator: log it and hand back the answer. *)
Definition call {A} (kind : event -> bool) (e : event)
    (answer : nat -> Result A) : M A :=
  fun w => (answer (calls kind w), w ++ [e]).

Section Pipeline.
Context {utils : Utils} (env : Env).

Definition pleroma_me : M Account :=
  call (fun _ => false) CallMe (fun _ => me_result env).
Definition pleroma_following (account_id : ID) : M (list Account) :=
  call (fun _ => false) (CallFollowing account_id)
       (fun _ => following_result env account_id).
Definition pleroma_status_context (id : ID) : M Context :=
  call is_status_context (CallStatusContext id)
       (fun k => status_context_result env k id).
Definition pleroma_react (id : ID) (glyph : pystr) : M unit :=
  call is_react (CallReact id glyph) (fun k => react_result env k id glyph).
Definition pleroma_pin (id : ID) : M unit :=
  call is_pin (CallPin id) (fun k => pin_result env k id).
Definition pleroma_unpin (id : ID) : M unit :=
  call is_pin (CallUnpin id) (fun k => unpin_result env k id).
Definition pleroma_reply (to_status : Status) (content : pystr)
    (cw : option pystr) : M unit :=
  call is_reply (CallReply to_status content cw)
       (fun k => reply_result env k to_status content cw).
Definition make_post (c : Config) : M pystr :=
  call is_make_post (CallMakePost c) (fun k => make_post_result env k c).
Definition anyio_sleep (delay : nat) : M unit :=
  call is_sleep (CallSleep delay) (fun _ => Ok tt).
Definition print (msg : pystr) : M unit :=
  call is_print (CallPrint msg) (fun _ => Ok tt).
(** [async with anyio.create_task_group() as tg: tg.start_soon(...) ...] *)
Definition task_group (tasks : list task) : M unit :=
  call is_task_group (TaskGroup tasks) (fun k => task_group_result env k tasks).

(** *** [extract_toot] *)

(** [text.lower()]: the ASCII mapping on all-ASCII text, the loop over the
    Unicode tables otherwise. *)
Definition lower (text : pystr) : pystr :=
  if forallb is_ascii text then List.map ascii_lower text
  else unicode_lower text.

Definition extract_toot (toot : pystr) : pystr :=
  let text := extract_post_content toot in
  let text := sub_initial_mention text in
  let text := lower text in
  text.

(** *** [reply] *)

(** The three rewriting steps of [reply] between [make_post] and the
    posting call. *)
Definition sanitize (c : Config) (toot : pystr) : Result pystr :=
  match
    (if strip_paired_punctuation c then
       match PAIRED_PUNCTUATION with
       | Some sub => Ok (sub toot)
       | None => Raise (NameError "PAIRED_PUNCTUATION")
       end
     else Ok toot)
  with
  | Ok toot =>
      let toot := replace_at toot in
      let toot := remove_mentions c toot in
      Ok toot
  | Raise e => Raise e
  end.

Definition lift {A} (r : Result A) : M A := fun w => (r, w).

Definition reply (self : ReplyBot) (notification : Notification) : M unit :=
  toot ← make_post (cfg self);
  toot ← lift (sanitize (cfg self) toot);
  pleroma_reply (notif_status notification) toot (cw (cfg self)).

(** *** [process_command] *)

(** The loop that looks for the post the user is talking about:
    [target_post_id] is (re)bound at every ancestor whose id equals
    [in_reply_to_id], and stays unbound ([None]) when there is none. *)
Definition find_target (l : list Post) (in_reply_to_id : option ID) : option ID :=
  fold_left
    (fun target_post_id post =>
       if bool_decide (Some (post_id post) = in_reply_to_id)
       then Some (post_id post) else target_post_id)
    l None.

Definition process_command (self : ReplyBot) (context : Context)
    (notification : Notification) (command : pystr) : M unit :=
  let id := st_id (notif_status notification) in
  if bool_decide (acc_id (notif_account notification) ∉ follows self) then
    pleroma_react id CROSS_MARK
  else
    let target_post_id :=
      find_target (ancestors context)
                  (st_in_reply_to_id (notif_status notification)) in
    fun w =>
      (* try: *)
      match
        (match target_post_id with
         | Some target_post_id =>
             (if bool_decide (command = str "pin")
              then pleroma_pin else pleroma_unpin) target_post_id
         | None => raise (UnboundLocalError "target_post_id")
         end) w
      with
      (* except pleroma.BadRequest as exc: *)
      | (Raise (BadRequest msg), w') =>
          task_group
            [StartReact id CROSS_MARK;
             StartReply (notif_status notification) (str "Error: " ++ msg) None]
            w'
      | (Raise e, w') => (Raise e, w')
      (* else: *)
      | (Ok _, w') => pleroma_react id CHECK_MARK w'
      end.

(** *** [process_notification] *)

Definition COMMANDS : gset pystr := {[ str "pin"; str "unpin" ]}.

(** Lines 42 to 50: what [process_notification] does once it holds the
    thread context. *)
Definition dispatch (self : ReplyBot) (context : Context)
    (notification : Notification) : M unit :=
  if check_thread_length self context then ret tt
  else
    let content := extract_toot (st_content (notif_status notification)) in
    if bool_decide (content ∈ COMMANDS) then
      process_command self context notification content
    else
      reply self notification.

Definition abort_message (retry_count : nat) : pystr :=
  str "Received HTTP 500 " ++ str_of_nat retry_count
    ++ str " times in a row, aborting reply attempt.".

(** [retry_count] counts the attempts made so far: 0 by default, and the
    incremented value in the recursive call.  Line 26 builds [acct], which
    nothing reads afterwards.  The handler names [pleroma.BadResponse]
    only; the recursive call and the [print] happen inside it, and its
    [return] ends the handling of the notification. *)
Equations? process_notification (self : ReplyBot) (notification : Notification)
    (retry_count : nat) (w : World) : Result unit * World
    by wf (3 - retry_count)%nat lt :=
  process_notification self notification retry_count w
    with pleroma_status_context (st_id (notif_status notification)) w => {
    | (Ok context, w') := dispatch self context notification w';
    | (Raise BadResponse, w') with lt_dec (S retry_count) 3 => {
        | left _ :=
            process_notification self notification (S retry_count)
              (snd (anyio_sleep (2 ^ S retry_count) w'));
        | right _ := print (abort_message (S retry_count)) w' };
    | (Raise e, w') := (Raise e, w') }.
Proof. lia. Qed.

(** *** [run] *)

(** The [async for] loop over what the mention stream yields. *)
Fixpoint run_loop (self : ReplyBot) (stream : list Notification) : M unit :=
  match stream with
  | [] => ret tt
  | notification :: stream' =>
      process_notification self notification 0;;
      run_loop self stream'
  end.

(** [run], given the configuration and the notifications the mention
    stream yields. *)
Definition run (c : Config) (stream : list Notification) : M unit :=
  account ← pleroma_me;
  users ← pleroma_following (acc_id account);
  run_loop {| cfg := c; me := acc_id account;
              follows := list_to_set (List.map acc_id users) |} stream.

End Pipeline.

(** ** What one notification entitles the bot to do

    The calls that the handling of [notification] may make once the
    thread context is known: the generator call with the bot's
    configuration, a reply to the triggering status, a reaction on the
    triggering status with one of the two glyphs, a task group whose
    tasks are the failure reaction on the triggering status and a reply
    to it without content warning, and a pin or unpin of a post only when
    the sender is followed, the text is that very command, and the post
    is the ancestor the status replies to. *)

Definition task_permitted (notification : Notification) (t : task) : Prop :=
  match t with
  | StartReact id glyph =>
      id = st_id (notif_status notification) /\ glyph = CROSS_MARK
  | StartReply to_status _ warning =>
      to_status = notif_status notification /\ warning = None
  end.

(** The calls on collaborators that a log entry stands for: the tasks of
    a task group are one call each, every other entry is one call. *)
Definition collaborator_calls (evs : list event) : nat :=
  foldr (fun e n =>
           (match e with TaskGroup tasks => length tasks | _ => 1 end + n)%nat)
        0%nat evs.

Section Permitted.
Context {utils : Utils}.

Definition command_target (self : ReplyBot) (context : Context)
    (notification : Notification) (target : ID) : Prop :=
  acc_id (notif_account notification) ∈ follows self
  /\ st_in_reply_to_id (notif_status notification) = Some target
  /\ exists post, post ∈ ancestors context /\ post_id post = target.

Definition permitted (self : ReplyBot) (context : Context)
    (notification : Notification) (e : event) : Prop :=
  match e with
  | CallPin target =>
      command_target self context notification target
      /\ extract_toot (st_content (notif_status notification)) = str "pin"
  | CallUnpin target =>
      command_target self context notification target
      /\ extract_toot (st_content (notif_status notification)) = str "unpin"
  | CallReact id glyph =>
      id = st_id (notif_status notification)
      /\ (glyph = CROSS_MARK \/ glyph = CHECK_MARK)
  | CallReply to_status _ warning =>
      to_status = notif_status notification /\ warning = cw (cfg self)
  | CallMakePost c => c = cfg self
  | TaskGroup tasks => Forall (task_permitted notification) tasks
  | CallMe | CallFollowing _ | CallStatusContext _ | CallSleep _
  | CallPrint _ => False
  end.

End Permitted.

(** The body of the loop of [find_target]. *)
Definition target_step (in_reply_to_id : option ID)
    (target_post_id : option ID) (post : Post) : option ID :=
  if bool_decide (Some (post_id post) = in_reply_to_id)
  then Some (post_id post) else target_post_id.

(** The call the command stands for: [pin] for ["pin"], [unpin] for any
    other text, and what the server answers to it. *)
Definition command_call (command : pystr) (target : ID) : event :=
  if bool_decide (command = str "pin") then CallPin target else CallUnpin target.

Definition command_answer (env : Env) (command : pystr) (w : World)
    (target : ID) : Result unit :=
  if bool_decide (command = str "pin")
  then pin_result env (calls is_pin w) target
  else unpin_result env (calls is_pin w) target.

(** The six log entries of a notification whose context fetch meets
    HTTP 500 three times. *)
Definition abandoned (notification : Notification) : list event :=
  let id := st_id (notif_status notification) in
  [CallStatusContext id; CallSleep 2; CallStatusContext id; CallSleep 4;
   CallStatusContext id; CallPrint (abort_message 3)].

(** ** Concrete inputs

    A small deployment used to run the definitions: the bot is account
    ["42"] and follows ["7"] (alice); mallory, ["9"], is not followed. *)

Definition plain_utils : Utils := {|
  extract_post_content := fun text => text;    (* the content has no markup *)
  remove_mentions := fun _ sentence => sentence;   (* mentions are kept *)
  PAIRED_PUNCTUATION := None
|}.

Definition cfg_two : Config :=
  {| max_thread_length := 2; strip_paired_punctuation := false; cw := None |}.

Definition bot_account : Account := {| acc_id := str "42"; acc_acct := str "bot" |}.
Definition alice : Account := {| acc_id := str "7"; acc_acct := str "alice" |}.
Definition mallory : Account := {| acc_id := str "9"; acc_acct := str "mallory" |}.

Definition bot_two : ReplyBot :=
  {| cfg := cfg_two; me := str "42"; follows := {[ str "7" ]} |}.

Definition bot_threshold_zero : ReplyBot :=
  {| cfg := {| max_thread_length := 0; strip_paired_punctuation := false;
               cw := None |};
     me := str "42"; follows := ∅ |}.

Definition stranger_post : Post := {| post_id := str "1"; post_account := alice |}.

Definition mention (who : Account) (id content : pystr)
    (in_reply_to_id : option ID) : Notification :=
  {| notif_account := who;
     notif_status := {| st_id := id; st_content := content;
                        st_in_reply_to_id := in_reply_to_id |} |}.

Definition hello_100 : Notification := mention alice (str "100") (str "@bot hello") None.
Definition hello_101 : Notification := mention alice (str "101") (str "@bot hello") None.
Definition hello_102 : Notification := mention alice (str "102") (str "@bot hello") None.

(** Every collaborator answers; threads have no ancestors. *)
Definition env_quiet : Env := {|
  me_result := Ok bot_account;
  following_result := fun _ => Ok [alice];
  status_context_result := fun _ _ => Ok {| ancestors := [] |};
  react_result := fun _ _ _ => Ok tt;
  pin_result := fun _ _ => Ok tt;
  unpin_result := fun _ _ => Ok tt;
  reply_result := fun _ _ _ _ => Ok tt;
  make_post_result := fun _ _ => Ok (str "hello");
  task_group_result := fun _ _ => Ok tt
|}.

(** As [env], with another answer to the context fetch. *)
Definition with_status_context (answer : nat -> ID -> Result Context)
    (env : Env) : Env := {|
  me_result := me_result env;
  following_result := following_result env;
  status_context_result := answer;
  react_result := react_result env;
  pin_result := pin_result env;
  unpin_result := unpin_result env;
  reply_result := reply_result env;
  make_post_result := make_post_result env;
  task_group_result := task_group_result env
|}.

(** As [env], with another answer to the posting of a reply. *)
Definition with_reply
    (answer : nat -> Status -> pystr -> option pystr -> Result unit)
    (env : Env) : Env := {|
  me_result := me_result env;
  following_result := following_result env;
  status_context_result := status_context_result env;
  react_result := react_result env;
  pin_result := pin_result env;
  unpin_result := unpin_result env;
  reply_result := answer;
  make_post_result := make_post_result env;
  task_group_result := task_group_result env
|}.

(** The server answers HTTP 500 to every context fetch. *)
Definition env_always_500 : Env :=
  with_status_context (fun _ _ => Raise BadResponse) env_quiet.

(** The server answers HTTP 500 once, then recovers. *)
Definition env_500_once : Env :=
  with_status_context
    (fun attempt _ =>
       match attempt with
       | O => Raise BadResponse
       | S _ => Ok {| ancestors := [] |}
       end)
    env_quiet.

(** The first context fetch fails with an error that is not
    [BadResponse]; later ones succeed. *)
Definition env_client_error : Env :=
  with_status_context
    (fun attempt _ =>
       match attempt with
       | O => Raise (OtherError "ClientError")
       | S _ => Ok {| ancestors := [] |}
       end)
    env_quiet.

(** The server answers HTTP 500 to the second reply the bot posts. *)
Definition env_reply_500 : Env :=
  with_reply
    (fun k _ _ _ =>
       match k with
       | 1%nat => Raise BadResponse
       | _ => Ok tt
       end)
    env_quiet.

(** Commands: mallory asks for a pin; alice asks for one in a status
    that is no reply. *)
Definition pin_by_mallory : Notification :=
  mention mallory (str "200") (str "@bot pin") (Some (str "1")).
Definition pin_by_alice_no_reply : Notification :=
  mention alice (str "201") (str "@bot pin") None.

(** alice asks for a pin (and an unpin) of the post she replies to. *)
Definition pin_by_alice : Notification :=
  mention alice (str "202") (str "@bot pin") (Some (str "1")).
Definition unpin_by_alice : Notification :=
  mention alice (str "203") (str "@bot UNPIN") (Some (str "1")).

(** A thread in which the bot wrote two of three ancestors. *)
Definition own_post (id : ID) : Post := {| post_id := id; post_account := bot_account |}.
Definition deep_thread : Context :=
  {| ancestors := [own_post (str "1"); stranger_post; own_post (str "3")] |}.

(** As [env], with another answer to pin and unpin. *)
Definition with_pin (answer : nat -> ID -> Result unit) (env : Env) : Env := {|
  me_result := me_result env;
  following_result := following_result env;
  status_context_result := status_context_result env;
  react_result := react_result env;
  pin_result := answer;
  unpin_result := answer;
  reply_result := reply_result env;
  make_post_result := make_post_result env;
  task_group_result := task_group_result env
|}.

(** The server rejects every pin and unpin. *)
Definition env_pin_rejected : Env :=
  with_pin (fun _ _ => Raise (BadRequest (str "already pinned"))) env_quiet.

(** The server answers HTTP 500 to every pin and unpin. *)
Definition env_pin_500 : Env := with_pin (fun _ _ => Raise BadResponse) env_quiet.

(** Every thread is [deep_thread]. *)
Definition env_deep : Env :=
  with_status_context (fun _ _ => Ok deep_thread) env_quiet.

(** As [env], with other answers at start-up. *)
Definition with_session (account : Result Account)
    (users : ID -> Result (list Account)) (env : Env) : Env := {|
  me_result := account;
  following_result := users;
  status_context_result := status_context_result env;
  react_result := react_result env;
  pin_result := pin_result env;
  unpin_result := unpin_result env;
  reply_result := reply_result env;
  make_post_result := make_post_result env;
  task_group_result := task_group_result env
|}.

Definition env_no_identity : Env :=
  with_session (Raise BadResponse) (fun _ => Ok [alice]) env_quiet.
Definition env_no_following : Env :=
  with_session (Ok bot_account) (fun _ => Raise BadResponse) env_quiet.

(** The punctuation strip is asked for. *)
Definition cfg_strip : Config :=
  {| max_thread_length := 2; strip_paired_punctuation := true; cw := None |}.
Definition bot_strip : ReplyBot :=
  {| cfg := cfg_strip; me := str "42"; follows := {[ str "7" ]} |}.

(** * Properties *)

(** ** The thread gate *)

Lemma own_posts_cons own post l :
  own_posts own (post :: l)
  = (if bool_decide (acc_id (post_account post) = own) then 1 else 0)
    + own_posts own l.
Proof.
  unfold own_posts. rewrite filter_cons.
  case_bool_decide; case_decide; try done; simpl length; lia.
Qed.

Lemma own_posts_nonneg own l : 0 <= own_posts own l.
Proof. unfold own_posts. lia. Qed.

(** The loop started with [posts] already counted answers [true] exactly
    when some non-empty prefix of the remaining ancestors brings the
    count up to the threshold. *)
Lemma check_thread_loop_spec self posts l :
  check_thread_loop self posts l = true <->
  exists k : nat,
    (1 <= k <= length l)%nat
    /\ posts + own_posts (me self) (take k l) >= max_thread_length (cfg self).
Proof.
  revert posts. induction l as [|post l IH]; intros posts; simpl.
  - split; [done | intros (k & Hk & _); simpl in Hk; lia].
  - case_bool_decide as Hreach.
    + split; [intros _ | done].
      exists 1%nat. split; [simpl; lia |].
      rewrite firstn_cons, take_0, own_posts_cons.
      unfold own_posts at 1; simpl. case_bool_decide; lia.
    + rewrite IH. split.
      * intros (k & Hk & Hge). exists (S k). split; [simpl; lia |].
        rewrite firstn_cons, own_posts_cons. case_bool_decide; lia.
      * intros ([|k] & Hk & Hge); [lia |].
        rewrite firstn_cons, own_posts_cons in Hge.
        destruct k as [|k].
        { rewrite take_0 in Hge. unfold own_posts in Hge at 1; simpl in Hge.
          case_bool_decide; lia. }
        exists (S k). split; [simpl in Hk; lia |].
        case_bool_decide; lia.
Qed.

(** C1: [check_thread_length] answers [True] if and only if, scanning the
    ancestors in their given order, the running count of posts whose
    author is the bot reaches [max_thread_length] at some step of the
    scan; otherwise it answers [False]. *)
Theorem check_thread_length_iff_running_count (self : ReplyBot) (context : Context) :
  (check_thread_length self context = true <->
   running_count_reaches (me self) (max_thread_length (cfg self))
     (ancestors context))
  /\ (check_thread_length self context = false <->
      ~ running_count_reaches (me self) (max_thread_length (cfg self))
          (ancestors context)).
Proof.
  assert (Hiff : check_thread_length self context = true <->
                 running_count_reaches (me self) (max_thread_length (cfg self))
                   (ancestors context)).
  { unfold check_thread_length, running_count_reaches.
    rewrite check_thread_loop_spec. by setoid_rewrite Z.add_0_l. }
  split; [exact Hiff |].
  rewrite <- Hiff. symmetry. apply not_true_iff_false.
Qed.

Lemma own_posts_take own k l : own_posts own (take k l) <= own_posts own l.
Proof.
  rewrite <- (take_drop k l) at 2. unfold own_posts.
  rewrite filter_app, length_app. lia.
Qed.

(** Since the count never goes down, the scan reaches the threshold at
    some step exactly when there is an ancestor at all and the bot's
    posts among all ancestors are that many. *)
Lemma check_thread_length_total_count self context :
  check_thread_length self context = true <->
  ancestors context <> []
  /\ own_posts (me self) (ancestors context) >= max_thread_length (cfg self).
Proof.
  unfold check_thread_length. rewrite check_thread_loop_spec.
  setoid_rewrite Z.add_0_l. split.
  - intros (k & Hk & Hge). split.
    + intros Hnil. rewrite Hnil in Hk. simpl in Hk. lia.
    + apply Z.le_ge.
      transitivity (own_posts (me self) (take k (ancestors context)));
        [by apply Z.ge_le | apply own_posts_take].
  - intros [Hne Hge]. exists (length (ancestors context)). split.
    + destruct (ancestors context); [done | simpl; lia].
    + by rewrite firstn_all.
Qed.

(** X1: The gate in closed form: it answers [True] exactly when there is an
    ancestor at all and the posts of the bot among all the ancestors are
    at least [max_thread_length]. *)
Theorem check_thread_length_iff_total (self : ReplyBot) (context : Context) :
  check_thread_length self context
  = bool_decide (ancestors context <> []
                 /\ own_posts (me self) (ancestors context)
                    >= max_thread_length (cfg self)).
Proof.
  destruct (check_thread_length self context) eqn:Hgate; symmetry.
  - apply bool_decide_eq_true_2. by apply check_thread_length_total_count.
  - apply bool_decide_eq_false_2.
    rewrite <- check_thread_length_total_count. congruence.
Qed.

(** The example of the specification: own id ["42"], threshold 2, three
    ancestors of which the first and the third are the bot's. *)
Example check_thread_length_example :
  check_thread_length
    {| cfg := {| max_thread_length := 2; strip_paired_punctuation := false;
                 cw := None |};
       me := str "42"; follows := ∅ |}
    {| ancestors :=
         [ {| post_id := str "1";
              post_account := {| acc_id := str "42"; acc_acct := [] |} |};
           {| post_id := str "2";
              post_account := {| acc_id := str "7"; acc_acct := [] |} |};
           {| post_id := str "3";
              post_account := {| acc_id := str "42"; acc_acct := [] |} |} ] |}
  = true.
Proof. reflexivity. Qed.

(** C10: the threshold is compared after every ancestor, whoever wrote
    it: with [max_thread_length <= 0] the gate answers [True] for every
    context with at least one ancestor and [False] for the context
    without ancestors. *)
Theorem check_thread_length_nonpositive_threshold
    (self : ReplyBot) (context : Context) :
  max_thread_length (cfg self) <= 0 ->
  (ancestors context <> [] -> check_thread_length self context = true)
  /\ (ancestors context = [] -> check_thread_length self context = false).
Proof.
  intros Hmax. unfold check_thread_length. split.
  - destruct (ancestors context) as [|post l]; [done | intros _].
    simpl. rewrite bool_decide_true; [done |].
    case_bool_decide; lia.
  - intros ->. reflexivity.
Qed.

Lemma check_thread_length_nonpositive_threshold_witness :
  check_thread_length bot_threshold_zero {| ancestors := [stranger_post] |} = true
  /\ check_thread_length bot_threshold_zero {| ancestors := [] |} = false.
Proof.
  split.
  - apply (check_thread_length_nonpositive_threshold bot_threshold_zero
             {| ancestors := [stranger_post] |}); [simpl; lia | done].
  - apply (check_thread_length_nonpositive_threshold bot_threshold_zero
             {| ancestors := [] |}); [simpl; lia | done].
Defined.

(** ** The retry controller *)

Section PipelineFacts.
Context {utils : Utils} (env : Env).

Lemma calls_app kind (w1 w2 : World) :
  calls kind (w1 ++ w2) = (calls kind w1 + calls kind w2)%nat.
Proof. unfold calls. by rewrite List.filter_app, length_app. Qed.

(** One step of [process_notification], as the source reads. *)
Lemma process_notification_step self notification retry_count w :
  process_notification env self notification retry_count w =
  let id := st_id (notif_status notification) in
  let w' := w ++ [CallStatusContext id] in
  match status_context_result env (calls is_status_context w) id with
  | Ok context => dispatch env self context notification w'
  | Raise BadResponse =>
      if decide (S retry_count < 3)%nat then
        process_notification env self notification (S retry_count)
          (w' ++ [CallSleep (2 ^ S retry_count)])
      else (Ok tt, w' ++ [CallPrint (abort_message (S retry_count))])
  | Raise e => (Raise e, w')
  end.
Proof.
  simp process_notification.
  unfold pleroma_status_context, call. cbn zeta.
  destruct (status_context_result env _ _) as [context|[]]; simpl; try done.
  destruct (lt_dec _ 3); case_decide; try lia; done.
Qed.

(** The retry budget is spent when every attempt meets HTTP 500. *)
Lemma process_notification_all_transient self notification w :
  let id := st_id (notif_status notification) in
  (forall attempt, status_context_result env attempt id = Raise BadResponse) ->
  process_notification env self notification 0 w =
  (Ok tt,
   w ++ [CallStatusContext id; CallSleep 2;
         CallStatusContext id; CallSleep 4;
         CallStatusContext id;
         CallPrint
           (str "Received HTTP 500 3 times in a row, aborting reply attempt.")]).
Proof.
  intros id Hfail.
  do 3 (rewrite process_notification_step; cbn zeta; fold id;
        rewrite Hfail; case_decide; try lia).
  by rewrite <- !app_assoc.
Qed.

(** C2: when the context fetch meets a transient server error on every
    attempt, handling the notification makes exactly three fetch calls
    with sleeps of 2 and 4 between them, prints the diagnostic and
    returns with no reply and no reaction; when the fetch fails once and
    succeeds on the second attempt, there are exactly two fetch calls and
    one sleep of 2, and the pipeline goes on with the fetched context. *)
Theorem process_notification_retry_budget
    (self : ReplyBot) (notification : Notification) (w : World) :
  let id := st_id (notif_status notification) in
  let first := calls is_status_context w in
  ((forall attempt, status_context_result env attempt id = Raise BadResponse) ->
   process_notification env self notification 0 w =
   (Ok tt,
    w ++ [CallStatusContext id; CallSleep 2;
          CallStatusContext id; CallSleep 4;
          CallStatusContext id;
          CallPrint
            (str "Received HTTP 500 3 times in a row, aborting reply attempt.")]))
  /\ (forall context,
        status_context_result env first id = Raise BadResponse ->
        status_context_result env (S first) id = Ok context ->
        process_notification env self notification 0 w =
        dispatch env self context notification
          (w ++ [CallStatusContext id; CallSleep 2; CallStatusContext id])).
Proof.
  intros id first. split.
  - apply process_notification_all_transient.
  - intros context Hfirst Hsecond.
    rewrite process_notification_step; cbn zeta; fold id first.
    rewrite Hfirst. case_decide; [| lia].
    rewrite process_notification_step; cbn zeta; fold id.
    assert (calls is_status_context
              ((w ++ [CallStatusContext id]) ++ [CallSleep (2 ^ 1)])
            = S first) as ->.
    { rewrite !calls_app. fold first. unfold calls. simpl. lia. }
    rewrite Hsecond. by rewrite <- !app_assoc.
Qed.


(** ** The dispatcher loop *)

Lemma run_loop_cons self notification stream w :
  run_loop env self (notification :: stream) w =
  match process_notification env self notification 0 w with
  | (Ok _, w') => run_loop env self stream w'
  | (Raise e, w') => (Raise e, w')
  end.
Proof. reflexivity. Qed.

(** C3, as the code has it: [run] has no handler around
    [process_notification].  After a prefix of the stream that was
    handled without an error, the loop goes on to the rest of the stream
    only if handling the next notification returns; if it raises, the
    loop ends with that error, in the state the failed handling left,
    and nothing of the rest of the stream is processed. *)
Theorem run_loop_stops_at_first_raise
    (self : ReplyBot) (handled : list Notification) (notification : Notification)
    (rest : list Notification) (w w1 w2 : World) (r : Result unit) :
  run_loop env self handled w = (Ok tt, w1) ->
  process_notification env self notification 0 w1 = (r, w2) ->
  run_loop env self (handled ++ notification :: rest) w =
  match r with
  | Ok _ => run_loop env self rest w2
  | Raise e => (Raise e, w2)
  end.
Proof.
  revert w. induction handled as [|first handled IH]; intros w Hhandled Hnext.
  - injection Hhandled as <-. simpl app. rewrite run_loop_cons, Hnext.
    by destruct r.
  - rewrite run_loop_cons in Hhandled. simpl app. rewrite run_loop_cons.
    destruct (process_notification env self first 0 w) as [[[]|e] w'];
      [by apply IH | done].
Qed.

(** C7, as the code has it: an error of the context fetch that is not
    [BadResponse] is not retried (no sleep and no second fetch), nothing
    is printed and no reaction or reply is made; the error leaves
    [process_notification] and ends the dispatcher loop. *)
Theorem process_notification_other_fetch_error
    (self : ReplyBot) (notification : Notification) (retry_count : nat)
    (w : World) (e : exc) :
  let id := st_id (notif_status notification) in
  e <> BadResponse ->
  status_context_result env (calls is_status_context w) id = Raise e ->
  process_notification env self notification retry_count w
  = (Raise e, w ++ [CallStatusContext id])
  /\ forall rest,
       run_loop env self (notification :: rest) w
       = (Raise e, w ++ [CallStatusContext id]).
Proof.
  intros id Hother Hfetch.
  assert (Hstep : forall retry_count,
             process_notification env self notification retry_count w
             = (Raise e, w ++ [CallStatusContext id])).
  { intros rc. rewrite process_notification_step; cbn zeta; fold id.
    rewrite Hfetch. by destruct e. }
  split; [apply Hstep |].
  intros rest. by rewrite run_loop_cons, Hstep.
Qed.


(** ** The command processor *)

(** C6: a command from an account that the bot does not follow leads to
    exactly one call, the reaction with the failure glyph on the
    triggering post; there is no pin, no unpin and no reply, whichever
    command was asked for.  The second part states it for a notification
    that reaches the command processor through the text check. *)
Theorem process_command_unauthorized
    (self : ReplyBot) (context : Context) (notification : Notification)
    (w : World) :
  let id := st_id (notif_status notification) in
  acc_id (notif_account notification) ∉ follows self ->
  (forall command,
     process_command env self context notification command w
     = (react_result env (calls is_react w) id CROSS_MARK,
        w ++ [CallReact id CROSS_MARK]))
  /\ (check_thread_length self context = false ->
      extract_toot (st_content (notif_status notification)) ∈ COMMANDS ->
      dispatch env self context notification w
      = (react_result env (calls is_react w) id CROSS_MARK,
         w ++ [CallReact id CROSS_MARK])).
Proof.
  intros id Hstranger.
  assert (Hcommand : forall command,
             process_command env self context notification command w
             = (react_result env (calls is_react w) id CROSS_MARK,
                w ++ [CallReact id CROSS_MARK])).
  { intros command. unfold process_command.
    by rewrite bool_decide_true. }
  split; [exact Hcommand |].
  intros Hgate Htext. unfold dispatch.
  rewrite Hgate, bool_decide_true by done. apply Hcommand.
Qed.

Lemma find_target_fold l in_reply_to_id target :
  (forall post, post ∈ l -> Some (post_id post) <> in_reply_to_id) ->
  fold_left
    (fun target_post_id post =>
       if bool_decide (Some (post_id post) = in_reply_to_id)
       then Some (post_id post) else target_post_id)
    l target = target.
Proof.
  revert target. induction l as [|post l IH]; intros target Hnone; [done |].
  simpl. rewrite bool_decide_false by (apply Hnone; left).
  apply IH. intros post' Hin. apply Hnone. by right.
Qed.

(** C8: for a command of a followed account whose [in_reply_to_id]
    equals the id of no ancestor, the search binds no target; the code
    goes on to the pin/unpin call all the same, where reading the unbound
    [target_post_id] raises: the command ends there, with no call on the
    client. *)
Theorem process_command_unresolved_target
    (self : ReplyBot) (context : Context) (notification : Notification)
    (command : pystr) (w : World) :
  let in_reply_to_id := st_in_reply_to_id (notif_status notification) in
  acc_id (notif_account notification) ∈ follows self ->
  (forall post, post ∈ ancestors context ->
                Some (post_id post) <> in_reply_to_id) ->
  find_target (ancestors context) in_reply_to_id = None
  /\ process_command env self context notification command w
     = (Raise (UnboundLocalError "target_post_id"), w).
Proof.
  intros irt Hfollowed Hnone.
  assert (Htarget : find_target (ancestors context) irt = None)
    by (by apply find_target_fold).
  split; [exact Htarget |].
  unfold process_command. rewrite bool_decide_false by (by intros []).
  fold irt. by rewrite Htarget.
Qed.

(** X7: The rejection branch: when the pin/unpin call of an authorized
    command with a target raises [BadRequest], one task group is opened
    and handed the failure reaction and the reply with the error text. *)
Lemma process_command_rejected self context notification command w target msg :
  let id := st_id (notif_status notification) in
  acc_id (notif_account notification) ∈ follows self ->
  find_target (ancestors context)
              (st_in_reply_to_id (notif_status notification)) = Some target ->
  (if bool_decide (command = str "pin")
   then pin_result env (calls is_pin w) target
   else unpin_result env (calls is_pin w) target) = Raise (BadRequest msg) ->
  process_command env self context notification command w =
  let tasks :=
    [StartReact id CROSS_MARK;
     StartReply (notif_status notification) (str "Error: " ++ msg) None] in
  let called :=
    w ++ [if bool_decide (command = str "pin")
          then CallPin target else CallUnpin target] in
  (task_group_result env (calls is_task_group called) tasks,
   called ++ [TaskGroup tasks]).
Proof.
  intros id Hfollowed Htarget Hrejected.
  unfold process_command. rewrite bool_decide_false by (by intros []).
  rewrite Htarget.
  case_bool_decide; unfold pleroma_pin, pleroma_unpin, call;
    by rewrite Hrejected.
Qed.


(** ** Mention-text extraction *)

Lemma span_run {A} (p : A -> bool) (run rest : list A) (x : A) :
  forallb p run = true -> p x = false ->
  span p (run ++ x :: rest) = (run, x :: rest).
Proof.
  intros Hrun Hx. induction run as [|y run IH]; simpl.
  - by rewrite Hx.
  - simpl in Hrun. apply andb_prop in Hrun as [-> Hrun]. by rewrite IH.
Qed.

Lemma sub_initial_mention_token (handle rest : pystr) (space : N) :
  handle <> [] ->
  forallb (fun c => negb (is_space c)) handle = true ->
  is_space space = true ->
  sub_initial_mention (AT :: handle ++ space :: rest) = rest.
Proof.
  intros Hne Hrun Hspace. unfold sub_initial_mention.
  rewrite N.eqb_refl, span_run; [| done | by rewrite Hspace].
  by destruct handle.
Qed.

Lemma to_lower_full_ascii (c : N) :
  is_ascii c = true -> to_lower_full c = [ascii_lower c].
Proof.
  intros Hascii. apply N.ltb_lt in Hascii.
  assert (Htable :
            forallb
              (fun n => bool_decide (to_lower_full (N.of_nat n)
                                     = [ascii_lower (N.of_nat n)]))
              (seq 0 128) = true) by (vm_compute; reflexivity).
  rewrite forallb_forall in Htable.
  specialize (Htable (N.to_nat c)). rewrite N2Nat.id in Htable.
  apply bool_decide_eq_true_1 in Htable; [done |].
  apply in_seq. lia.
Qed.

Lemma do_lower_no_sigma (before text : pystr) :
  CAPITAL_SIGMA ∉ text -> do_lower before text = flat_map to_lower_full text.
Proof.
  revert before. induction text as [|c text IH]; intros before; [done |].
  rewrite not_elem_of_cons. intros [Hc Htext]. simpl.
  rewrite IH by done. unfold lower_ucs4.
  destruct (N.eqb_spec c CAPITAL_SIGMA); [congruence | done].
Qed.

Lemma lower_ascii (text : pystr) :
  forallb is_ascii text = true -> lower text = List.map ascii_lower text.
Proof. intros Hascii. unfold lower. by rewrite Hascii. Qed.

(** Away from capital sigma, [lower] is the table applied code point by
    code point. *)
Lemma lower_no_sigma (text : pystr) :
  CAPITAL_SIGMA ∉ text -> lower text = flat_map to_lower_full text.
Proof.
  intros Hsigma. unfold lower, unicode_lower.
  destruct (forallb is_ascii text) eqn:Hascii; [| by apply do_lower_no_sigma].
  clear Hsigma. induction text as [|c text IH]; [done |].
  simpl in Hascii. apply andb_prop in Hascii as [Hc Htext].
  simpl. by rewrite to_lower_full_ascii, IH.
Qed.

(** The case mapping on samples that are not all ASCII: an accented
    capital, capital sigmas in final and in inner position, and the code
    point whose lowercase has two. *)
Example lower_samples :
  (* "PIN É" *)
  lower [80; 73; 78; 32; 201]%N = [112; 105; 110; 32; 233]%N
  (* "ΟΔΟΣ ΣΑΣ" *)
  /\ lower [927; 916; 927; 931; 32; 931; 913; 931]%N
     = [959; 948; 959; 962; 32; 963; 945; 962]%N
  (* "İ" *)
  /\ lower [304]%N = [105; 775]%N.
Proof. repeat split; vm_compute; reflexivity. Qed.


(** ** Reply sanitization *)

Lemma replace_at_cons c toot :
  replace_at (c :: toot)
  = (if (c =? AT)%N then [AT; ZWSP] else [c]) ++ replace_at toot.
Proof. reflexivity. Qed.

Lemma replace_at_escaped toot : at_escaped (replace_at toot).
Proof.
  induction toot as [|c toot IH]; intros i; [done |].
  rewrite replace_at_cons. destruct (N.eqb_spec c AT) as [->|Hc].
  - destruct i as [|[|i]]; simpl; [done | done | apply IH].
  - destruct i as [|i]; simpl; [congruence | apply IH].
Qed.

Lemma replace_at_length toot :
  (length toot <= length (replace_at toot))%nat.
Proof.
  induction toot as [|c toot IH]; [done |].
  rewrite replace_at_cons, length_app. destruct (c =? AT)%N; simpl; lia.
Qed.

Lemma replace_at_fixed toot : replace_at toot = toot <-> AT ∉ toot.
Proof.
  induction toot as [|c toot IH].
  - split; [intros _; apply not_elem_of_nil | done].
  - rewrite replace_at_cons, not_elem_of_cons.
    destruct (N.eqb_spec c AT) as [->|Hc]; simpl.
    + split; [| by intros [? _]].
      intros Heq. injection Heq as Heq.
      pose proof (replace_at_length toot) as Hlen.
      apply (f_equal length) in Heq. simpl in Heq. lia.
    + rewrite <- IH. split; [intros [= ?]; split; congruence |].
      intros [_ ->]. done.
Qed.

Lemma replace_at_keeps_at toot : AT ∈ replace_at toot <-> AT ∈ toot.
Proof.
  induction toot as [|c toot IH]; [done |].
  rewrite replace_at_cons, elem_of_app, elem_of_cons, IH.
  destruct (N.eqb_spec c AT) as [->|Hc].
  - split; [by left | intros _; left; by left].
  - by rewrite list_elem_of_singleton.
Qed.

(** C4, as the code has it: with no punctuation strip and a mention
    rule that leaves the text as it is, sanitization is the ['@']
    rewriting; in its result every ['@'] is directly followed by U+200B,
    so none is directly followed by a handle character; and sanitizing
    that result once more gives it back exactly when the text holds no
    ['@']. *)
Theorem sanitize_escapes_not_idempotent (c : Config) (toot : pystr) :
  strip_paired_punctuation c = false ->
  (forall sentence, remove_mentions c sentence = sentence) ->
  sanitize c toot = Ok (replace_at toot)
  /\ at_escaped (replace_at toot)
  /\ (sanitize c (replace_at toot) = Ok (replace_at toot) <-> AT ∉ toot).
Proof.
  intros Hstrip Hkeep.
  assert (Hsanitize : forall text, sanitize c text = Ok (replace_at text)).
  { intros text. unfold sanitize. by rewrite Hstrip, Hkeep. }
  split; [apply Hsanitize |]. split; [apply replace_at_escaped |].
  rewrite Hsanitize, <- replace_at_keeps_at, <- replace_at_fixed.
  split; [by intros [= ->] | by intros ->].
Qed.

End PipelineFacts.

(** ** Runs on the concrete inputs *)

Section Runs.
#[local] Existing Instance plain_utils.

Lemma process_notification_retry_budget_witness :
  process_notification env_always_500 bot_two hello_100 0 []
  = (Ok tt,
     [CallStatusContext (str "100"); CallSleep 2;
      CallStatusContext (str "100"); CallSleep 4;
      CallStatusContext (str "100");
      CallPrint
        (str "Received HTTP 500 3 times in a row, aborting reply attempt.")])
  /\ process_notification env_500_once bot_two hello_100 0 []
     = dispatch env_500_once bot_two {| ancestors := [] |} hello_100
         [CallStatusContext (str "100"); CallSleep 2;
          CallStatusContext (str "100")].
Proof.
  split.
  - apply (proj1 (process_notification_retry_budget
                    env_always_500 bot_two hello_100 [])).
    intros attempt. reflexivity.
  - apply (proj2 (process_notification_retry_budget
                    env_500_once bot_two hello_100 [])); reflexivity.
Defined.

(** C3, as the specification has it, fails: the HTTP 500 that answers
    the reply to the second notification is raised outside the [try] of
    [process_notification]; it leaves [run], and the third notification
    of the stream is never looked at. *)
Lemma run_crashes_on_reply_error :
  run env_reply_500 cfg_two [hello_100; hello_101; hello_102] []
  = (Raise BadResponse,
     [CallMe; CallFollowing (str "42");
      CallStatusContext (str "100"); CallMakePost cfg_two;
      CallReply (notif_status hello_100) (str "hello") None;
      CallStatusContext (str "101"); CallMakePost cfg_two;
      CallReply (notif_status hello_101) (str "hello") None]).
Proof. vm_compute. reflexivity. Qed.

Lemma run_loop_stops_at_first_raise_witness :
  run_loop env_reply_500 bot_two [hello_100; hello_101; hello_102] []
  = (Raise BadResponse,
     [CallStatusContext (str "100"); CallMakePost cfg_two;
      CallReply (notif_status hello_100) (str "hello") None;
      CallStatusContext (str "101"); CallMakePost cfg_two;
      CallReply (notif_status hello_101) (str "hello") None]).
Proof.
  apply (run_loop_stops_at_first_raise env_reply_500 bot_two
           [hello_100] hello_101 [hello_102] []
           [CallStatusContext (str "100"); CallMakePost cfg_two;
            CallReply (notif_status hello_100) (str "hello") None]
           _ (Raise BadResponse));
    vm_compute; reflexivity.
Defined.

(** C7, as the specification has it, fails: after a fetch error that is
    not [BadResponse] nothing is printed, and [run] ends with the error
    instead of going on to the next notification. *)
Lemma run_crashes_on_client_error :
  run env_client_error cfg_two [hello_100; hello_101] []
  = (Raise (OtherError "ClientError"),
     [CallMe; CallFollowing (str "42"); CallStatusContext (str "100")]).
Proof. vm_compute. reflexivity. Qed.

Lemma process_notification_other_fetch_error_witness :
  process_notification env_client_error bot_two hello_100 0 []
  = (Raise (OtherError "ClientError"), [CallStatusContext (str "100")])
  /\ forall rest,
       run_loop env_client_error bot_two (hello_100 :: rest) []
       = (Raise (OtherError "ClientError"), [CallStatusContext (str "100")]).
Proof.
  apply (process_notification_other_fetch_error env_client_error bot_two
           hello_100 0 [] (OtherError "ClientError")).
  - discriminate.
  - reflexivity.
Defined.

Lemma process_command_unauthorized_witness :
  (forall command,
     process_command env_quiet bot_two {| ancestors := [stranger_post] |}
       pin_by_mallory command []
     = (Ok tt, [CallReact (str "200") CROSS_MARK]))
  /\ dispatch env_quiet bot_two {| ancestors := [stranger_post] |}
       pin_by_mallory []
     = (Ok tt, [CallReact (str "200") CROSS_MARK]).
Proof.
  destruct (process_command_unauthorized env_quiet bot_two
              {| ancestors := [stranger_post] |} pin_by_mallory [])
    as [Hcommand Hdispatch].
  - by apply (bool_decide_eq_false_1 _).
  - split; [exact Hcommand |].
    apply Hdispatch; [reflexivity |].
    by apply (bool_decide_eq_true_1 _).
Defined.

Lemma process_command_unresolved_target_witness :
  find_target [stranger_post] None = None
  /\ process_command env_quiet bot_two {| ancestors := [stranger_post] |}
       pin_by_alice_no_reply (str "pin") []
     = (Raise (UnboundLocalError "target_post_id"), []).
Proof.
  apply (process_command_unresolved_target env_quiet bot_two
           {| ancestors := [stranger_post] |} pin_by_alice_no_reply
           (str "pin") []).
  - by apply (bool_decide_eq_true_1 _).
  - intros post _. discriminate.
Defined.


(** C4, as the specification has it, fails: sanitizing ["@alice"] gives
    ['@'], U+200B, ["alice"]; sanitizing that gives ['@'], U+200B,
    U+200B, ["alice"]. *)
Lemma sanitize_twice_differs :
  sanitize cfg_two (str "@alice") = Ok (AT :: ZWSP :: str "alice")
  /\ sanitize cfg_two (AT :: ZWSP :: str "alice")
     = Ok (AT :: ZWSP :: ZWSP :: str "alice")
  /\ AT :: ZWSP :: ZWSP :: str "alice" <> AT :: ZWSP :: str "alice".
Proof. split; [reflexivity | split; [reflexivity | discriminate]]. Qed.

Lemma sanitize_escapes_not_idempotent_witness :
  sanitize cfg_two (str "hello @alice") = Ok (replace_at (str "hello @alice"))
  /\ at_escaped (replace_at (str "hello @alice"))
  /\ (sanitize cfg_two (replace_at (str "hello @alice"))
      = Ok (replace_at (str "hello @alice"))
      <-> AT ∉ str "hello @alice").
Proof.
  apply (sanitize_escapes_not_idempotent cfg_two (str "hello @alice"));
    reflexivity.
Defined.

End Runs.

(** * Further properties of the code *)

(** ** The thread gate *)

Lemma own_posts_app own l1 l2 :
  own_posts own (l1 ++ l2) = own_posts own l1 + own_posts own l2.
Proof. unfold own_posts. rewrite filter_app, length_app. lia. Qed.

(** X2: The order of the ancestors does not matter to the gate. *)
Theorem check_thread_length_permutation (self : ReplyBot) (l1 l2 : list Post) :
  l1 ≡ₚ l2 ->
  check_thread_length self {| ancestors := l1 |}
  = check_thread_length self {| ancestors := l2 |}.
Proof.
  intros Hperm.
  assert (Hsame : forall b,
             check_thread_length self {| ancestors := l1 |} = b <->
             check_thread_length self {| ancestors := l2 |} = b).
  { assert (check_thread_length self {| ancestors := l1 |} = true <->
            check_thread_length self {| ancestors := l2 |} = true) as Htrue.
    { rewrite !check_thread_length_total_count. simpl.
      assert (own_posts (me self) l1 = own_posts (me self) l2) as ->.
      { unfold own_posts. by rewrite Hperm. }
      split; intros [Hne ?]; split; try done; intros ->.
      - by apply Permutation_nil_r in Hperm.
      - by apply Permutation_nil_l in Hperm. }
    intros [|]; [done |]. rewrite <- !not_true_iff_false. by rewrite Htrue. }
  by apply Hsame.
Qed.

(** X3: A thread that is too deep stays too deep when it grows, at either
    end. *)
Theorem check_thread_length_grows (self : ReplyBot) (before l after : list Post) :
  check_thread_length self {| ancestors := l |} = true ->
  check_thread_length self {| ancestors := before ++ l ++ after |} = true.
Proof.
  rewrite !check_thread_length_total_count. simpl. intros [Hne Hge]. split.
  - destruct l; [done |]. by destruct before.
  - rewrite !own_posts_app.
    pose proof (own_posts_nonneg (me self) before).
    pose proof (own_posts_nonneg (me self) after). lia.
Qed.

Lemma own_posts_none own l :
  (forall post, post ∈ l -> acc_id (post_account post) <> own) ->
  own_posts own l = 0.
Proof.
  intros Hnone. induction l as [|post l IH]; [done |].
  rewrite own_posts_cons, bool_decide_false by (apply Hnone; left).
  rewrite IH; [done |]. intros post' Hin. apply Hnone. by right.
Qed.

(** X4: With a threshold of at least 1, a thread without a post of the bot
    always passes the gate. *)
Theorem check_thread_length_no_own_post (self : ReplyBot) (context : Context) :
  1 <= max_thread_length (cfg self) ->
  (forall post, post ∈ ancestors context ->
                acc_id (post_account post) <> me self) ->
  check_thread_length self context = false.
Proof.
  intros Hmax Hnone. apply not_true_iff_false.
  rewrite check_thread_length_total_count. intros [_ Hge].
  rewrite own_posts_none in Hge by done. lia.
Qed.

(** ** Target resolution *)

Section Target.
Context (in_reply_to_id : option ID).

#[local] Abbreviation step := (target_step in_reply_to_id).

Lemma find_target_keeps l : fold_left step l in_reply_to_id = in_reply_to_id.
Proof.
  induction l as [|post l IH]; [done |]. simpl. unfold target_step at 2.
  case_bool_decide as Heq; [by rewrite Heq | done].
Qed.

Lemma find_target_found l target post :
  post ∈ l -> Some (post_id post) = in_reply_to_id ->
  fold_left step l target = in_reply_to_id.
Proof.
  revert target. induction l as [|first l IH]; intros target Hin Heq.
  - by apply elem_of_nil in Hin.
  - simpl. apply elem_of_cons in Hin as [<-|Hin]; [| by apply IH].
    unfold target_step at 2. rewrite bool_decide_true by done.
    rewrite Heq. apply find_target_keeps.
Qed.

Lemma find_target_origin l target t :
  fold_left step l target = Some t ->
  target = Some t
  \/ (in_reply_to_id = Some t /\ exists post, post ∈ l /\ post_id post = t).
Proof.
  revert target. induction l as [|first l IH]; intros target; [by left |].
  simpl. intros Hfold. apply IH in Hfold as [Hstep|(? & post & ? & ?)].
  - unfold target_step in Hstep. case_bool_decide as Heq; [| by left].
    right. injection Hstep as Hid. split; [congruence |].
    exists first. split; [left | done].
  - right. split; [done |]. exists post. split; [by right | done].
Qed.

End Target.

Lemma find_target_Some (l : list Post) (in_reply_to_id : option ID) (t : ID) :
  find_target l in_reply_to_id = Some t <->
  in_reply_to_id = Some t /\ exists post, post ∈ l /\ post_id post = t.
Proof.
  unfold find_target. split.
  - intros Hfold. by apply find_target_origin in Hfold as [?|?].
  - intros (-> & post & Hin & <-). by apply (find_target_found _ l None post).
Qed.

(** X5: The search binds a target exactly when the status is a reply to one
    of the ancestors, and the target is then the post replied to; it
    binds none exactly when no ancestor has the id replied to. *)
Theorem find_target_Some_iff (l : list Post) (in_reply_to_id : option ID) :
  (forall t,
     find_target l in_reply_to_id = Some t <->
     in_reply_to_id = Some t /\ exists post, post ∈ l /\ post_id post = t)
  /\ (find_target l in_reply_to_id = None <->
      forall post, post ∈ l -> Some (post_id post) <> in_reply_to_id).
Proof.
  split; [intros t; apply find_target_Some |]. split.
  - intros Hnone post Hin Heq.
    assert (find_target l in_reply_to_id = Some (post_id post)) as Hsome
      by (apply find_target_Some; eauto).
    congruence.
  - apply find_target_fold.
Qed.

(** ** The command processor *)

Section CommandFacts.
Context {utils : Utils} (env : Env).

Lemma process_command_authorized self context notification command w target :
  acc_id (notif_account notification) ∈ follows self ->
  find_target (ancestors context)
              (st_in_reply_to_id (notif_status notification)) = Some target ->
  process_command env self context notification command w =
  let id := st_id (notif_status notification) in
  let called := w ++ [command_call command target] in
  match command_answer env command w target with
  | Raise (BadRequest msg) =>
      task_group env
        [StartReact id CROSS_MARK;
         StartReply (notif_status notification) (str "Error: " ++ msg) None]
        called
  | Raise e => (Raise e, called)
  | Ok _ => pleroma_react env id CHECK_MARK called
  end.
Proof.
  intros Hfollowed Htarget. unfold process_command.
  rewrite bool_decide_false by (by intros []). rewrite Htarget.
  unfold command_call, command_answer.
  case_bool_decide; unfold pleroma_pin, pleroma_unpin, call; done.
Qed.

(** X6: The success path: for a followed sender whose status replies to an
    ancestor, a pin/unpin that the server accepts is followed by exactly
    one reaction, the check mark on the triggering status; the command
    returns what that reaction returns. *)
Theorem process_command_success
    (self : ReplyBot) (context : Context) (notification : Notification)
    (command : pystr) (w : World) (target : ID) :
  let id := st_id (notif_status notification) in
  acc_id (notif_account notification) ∈ follows self ->
  st_in_reply_to_id (notif_status notification) = Some target ->
  (exists post, post ∈ ancestors context /\ post_id post = target) ->
  command_answer env command w target = Ok tt ->
  process_command env self context notification command w
  = (react_result env (calls is_react w) id CHECK_MARK,
     w ++ [command_call command target; CallReact id CHECK_MARK]).
Proof.
  intros id Hfollowed Hreply Hancestor Haccepted.
  rewrite (process_command_authorized _ _ _ _ _ target), Haccepted;
    [| done | by apply find_target_Some].
  unfold pleroma_react, call. rewrite calls_app, <- app_assoc.
  replace (calls is_react [command_call command target]) with 0%nat
    by (unfold command_call; by case_bool_decide).
  by rewrite Nat.add_0_r.
Qed.

(** X8: An error of pin/unpin that is not [BadRequest] leaves
    [process_command] as it is: there is no reaction, no reply and no
    task group after the failed call. *)
Theorem process_command_other_error
    (self : ReplyBot) (context : Context) (notification : Notification)
    (command : pystr) (w : World) (target : ID) (e : exc) :
  acc_id (notif_account notification) ∈ follows self ->
  find_target (ancestors context)
              (st_in_reply_to_id (notif_status notification)) = Some target ->
  (forall msg, e <> BadRequest msg) ->
  command_answer env command w target = Raise e ->
  process_command env self context notification command w
  = (Raise e, w ++ [command_call command target]).
Proof.
  intros Hfollowed Htarget Hother Hfailed.
  rewrite (process_command_authorized _ _ _ _ _ target), Hfailed by done.
  destruct e; try done. by destruct (Hother msg).
Qed.

(** ** What the handling of a notification never does *)

(** Closes a goal about the entries a step has appended to the log. *)
Ltac events_done :=
  split;
  [ first [ simpl; rewrite <- ?app_assoc; reflexivity | by rewrite app_nil_r ]
  | split;
    [ simpl; lia
    | split;
      [ unfold collaborator_calls; simpl; lia
      | repeat first
          [apply Forall_nil_2 | apply Forall_cons_2 | progress simpl];
        auto ] ] ].

Lemma command_text_cases (content : pystr) :
  content ∈ COMMANDS -> content = str "pin" \/ content = str "unpin".
Proof. unfold COMMANDS. set_solver. Qed.

Lemma dispatch_events
    (self : ReplyBot) (context : Context) (notification : Notification)
    (w : World) :
  exists evs,
    snd (dispatch env self context notification w) = w ++ evs
    /\ (length evs <= 2)%nat
    /\ (collaborator_calls evs <= 3)%nat
    /\ Forall (permitted self context notification) evs.
Proof.
  unfold dispatch.
  destruct (check_thread_length self context) eqn:Hgate.
  { exists []. events_done. }
  set (content := extract_toot (st_content (notif_status notification))).
  case_bool_decide as Hcommand.
  - unfold process_command. case_bool_decide as Hstranger.
    { eexists. events_done. }
    destruct (find_target _ _) as [target|] eqn:Htarget.
    2: { exists []. events_done. }
    apply find_target_Some in Htarget as [Hreply Hancestor].
    assert (permitted self context notification (command_call content target))
      as Hcall.
    { unfold command_call. apply command_text_cases in Hcommand.
      case_bool_decide as Hpin; simpl; fold content.
      - done.
      - by destruct Hcommand. }
    unfold command_call in Hcall.
    case_bool_decide; unfold pleroma_pin, pleroma_unpin, call;
      (destruct (_ env _ target) as [[]|[]]; simpl;
       eexists; events_done).
  - unfold reply, mbind, M_bind, bind, make_post, call, lift.
    destruct (make_post_result env _ _) as [toot|e]; simpl.
    + destruct (sanitize (cfg self) toot) as [text|e]; simpl;
        eexists; events_done.
    + eexists. events_done.
Qed.

(** X9: Once the context is known, the handling of a notification adds at
    most two entries to the log, which stand for at most three calls on
    collaborators (the tasks of a task group counted one by one), all of
    them [permitted]: it never fetches, sleeps or prints; it reacts only
    on the triggering status and replies only to it, inside a task group
    as outside; and it pins or unpins only for a followed sender, only
    the ancestor the status replies to, and only when the text is that
    command. *)
Theorem dispatch_events_permitted
    (self : ReplyBot) (context : Context) (notification : Notification)
    (w : World) :
  exists evs,
    snd (dispatch env self context notification w) = w ++ evs
    /\ (length evs <= 2)%nat
    /\ (collaborator_calls evs <= 3)%nat
    /\ Forall (permitted self context notification) evs
    /\ calls is_status_context evs = 0%nat
    /\ calls is_sleep evs = 0%nat
    /\ calls is_print evs = 0%nat.
Proof.
  destruct (dispatch_events self context notification w)
    as (evs & Hlog & Hlen & Hcalls & Hall).
  exists evs. do 2 (split; [done |]).
  do 2 (split; [done |]).
  clear Hlog Hlen Hcalls. induction Hall as [|e evs He _ IH]; [done |].
  unfold calls in *. by destruct e.
Qed.

End CommandFacts.

(** ** The retry controller and the loop, whatever the collaborators answer *)

(** Closes the side conditions on the entries of a short, explicit
    log. *)
Ltac count_events :=
  unfold calls in *; simpl;
  repeat match goal with H : length _ = 0%nat |- _ => rewrite H end;
  try lia.

Ltac no_pin_among :=
  let Hin := fresh "Hin" in
  intros ? [Hin|Hin];
  repeat (apply elem_of_cons in Hin as [?|Hin]; [done |]);
  by apply elem_of_nil in Hin.

Section Bounds.
Context {utils : Utils} (env : Env).

Lemma permitted_not_fetch self context notification evs :
  Forall (permitted self context notification) evs ->
  calls is_status_context evs = 0%nat /\ calls is_sleep evs = 0%nat
  /\ calls is_print evs = 0%nat.
Proof.
  induction 1 as [|e evs He _ IH]; [done |].
  unfold calls in *. by destruct e.
Qed.

Lemma permitted_pin_followed self context notification evs target :
  Forall (permitted self context notification) evs ->
  CallPin target ∈ evs \/ CallUnpin target ∈ evs ->
  acc_id (notif_account notification) ∈ follows self
  /\ st_in_reply_to_id (notif_status notification) = Some target.
Proof.
  rewrite Forall_forall. intros Hall [Hin|Hin];
    apply Hall in Hin as [(? & ? & _) _]; done.
Qed.

(** What is known of the entries that handling one notification adds to
    the log, started with [retry_count] attempts already made. *)
Lemma process_notification_events self notification retry_count w :
  exists evs,
    snd (process_notification env self notification retry_count w) = w ++ evs
    /\ (1 <= calls is_status_context evs <= Nat.max 1 (3 - retry_count))%nat
    /\ (calls is_sleep evs <= 2 - retry_count)%nat
    /\ (forall target,
          CallPin target ∈ evs \/ CallUnpin target ∈ evs ->
          acc_id (notif_account notification) ∈ follows self
          /\ st_in_reply_to_id (notif_status notification) = Some target).
Proof.
  set (id := st_id (notif_status notification)).
  set (P := fun retry_count w =>
         exists evs,
           snd (process_notification env self notification retry_count w)
           = w ++ evs
           /\ (1 <= calls is_status_context evs
                <= Nat.max 1 (3 - retry_count))%nat
           /\ (calls is_sleep evs <= 2 - retry_count)%nat
           /\ (forall target,
                 CallPin target ∈ evs \/ CallUnpin target ∈ evs ->
                 acc_id (notif_account notification) ∈ follows self
                 /\ st_in_reply_to_id (notif_status notification)
                    = Some target)).
  change (P retry_count w).
  assert (Hstep : forall retry_count w,
             ((S retry_count < 3)%nat ->
              P (S retry_count)
                ((w ++ [CallStatusContext id])
                 ++ [CallSleep (2 ^ S retry_count)])) ->
             P retry_count w).
  { clear retry_count w. intros retry_count w Hrec. unfold P in *.
    rewrite process_notification_step; cbn zeta; fold id.
    destruct (status_context_result env _ _) as [context|e].
    - destruct (dispatch_events env self context notification
                  (w ++ [CallStatusContext id]))
        as (evs & -> & _ & _ & Hall).
      destruct (permitted_not_fetch _ _ _ _ Hall) as (Hfetch & Hsleep & _).
      exists (CallStatusContext id :: evs).
      split; [by rewrite <- app_assoc |].
      split; [count_events |]. split; [count_events |].
      intros target [Hin|Hin]; apply elem_of_cons in Hin as [?|Hin];
        try done; eapply permitted_pin_followed; eauto.
    - destruct e.
      2-5: (exists [CallStatusContext id]); (split; [done |]);
           (split; [count_events |]); (split; [count_events |]);
           no_pin_among.
      case_decide as Hretry.
      + destruct (Hrec Hretry) as (evs & -> & Hfetch & Hsleep & Hpins).
        exists (CallStatusContext id :: CallSleep (2 ^ S retry_count) :: evs).
        split; [by rewrite <- !app_assoc |].
        split; [count_events |]. split; [count_events |].
        intros target [Hin|Hin];
          apply elem_of_cons in Hin as [?|Hin]; try done;
          apply elem_of_cons in Hin as [?|Hin]; try done;
          apply Hpins; auto.
      + exists [CallStatusContext id;
                CallPrint (abort_message (S retry_count))].
        split; [by rewrite <- app_assoc |].
        split; [count_events |]. split; [count_events |]. no_pin_among. }
  assert (Hlast : forall retry_count w, (2 <= retry_count)%nat -> P retry_count w)
    by (intros; apply Hstep; lia).
  assert (Hsecond : forall w, P 1%nat w)
    by (intros; apply Hstep; intros _; by apply Hlast).
  destruct retry_count as [|[|retry_count]];
    [apply Hstep; intros _; apply Hsecond | apply Hsecond | apply Hlast; lia].
Qed.

End Bounds.

Section LoopFacts.
Context {utils : Utils} (env : Env).

(** X10: Whatever the collaborators answer, handling one notification makes
    at least one and at most three context fetches, and sleeps at most
    twice. *)
Theorem process_notification_call_bounds
    (self : ReplyBot) (notification : Notification) (w : World) :
  exists evs,
    snd (process_notification env self notification 0 w) = w ++ evs
    /\ (1 <= calls is_status_context evs <= 3)%nat
    /\ (calls is_sleep evs <= 2)%nat.
Proof.
  destruct (process_notification_events env self notification 0 w)
    as (evs & Hlog & Hfetch & Hsleep & _).
  exists evs. simpl in Hfetch, Hsleep. done.
Qed.

(** X11: The thread gate drops a notification silently: once the fetch has
    answered with a context that is too deep, nothing else is called and
    the handling returns. *)
Theorem process_notification_gate_drops
    (self : ReplyBot) (notification : Notification) (retry_count : nat)
    (w : World) (context : Context) :
  let id := st_id (notif_status notification) in
  status_context_result env (calls is_status_context w) id = Ok context ->
  check_thread_length self context = true ->
  process_notification env self notification retry_count w
  = (Ok tt, w ++ [CallStatusContext id]).
Proof.
  intros id Hfetch Hdeep.
  rewrite process_notification_step; cbn zeta; fold id.
  rewrite Hfetch. unfold dispatch. by rewrite Hdeep.
Qed.

Lemma run_loop_events self stream w :
  exists evs,
    snd (run_loop env self stream w) = w ++ evs
    /\ forall target,
         CallPin target ∈ evs \/ CallUnpin target ∈ evs ->
         exists notification,
           notification ∈ stream
           /\ acc_id (notif_account notification) ∈ follows self
           /\ st_in_reply_to_id (notif_status notification) = Some target.
Proof.
  revert w. induction stream as [|notification stream IH]; intros w.
  { exists []. split; [by rewrite app_nil_r | no_pin_among]. }
  rewrite run_loop_cons.
  destruct (process_notification_events env self notification 0 w)
    as (evs & Hlog & _ & _ & Hpins).
  destruct (process_notification env self notification 0 w) as [[[]|e] w'];
    simpl in Hlog; subst w'.
  - destruct (IH (w ++ evs)) as (evs' & -> & Hpins').
    exists (evs ++ evs'). split; [by rewrite app_assoc |].
    intros target Hin. rewrite !elem_of_app in Hin.
    assert (Hcases : (CallPin target ∈ evs \/ CallUnpin target ∈ evs)
                     \/ (CallPin target ∈ evs' \/ CallUnpin target ∈ evs'))
      by tauto.
    destruct Hcases as [Hhere|Hlater].
    + exists notification. split; [left | by apply Hpins].
    + destruct (Hpins' target Hlater) as (n & ? & ?).
      exists n. split; [by right | done].
  - exists evs. split; [done |]. intros target Hin.
    exists notification. split; [left | by apply Hpins].
Qed.

(** X12: End to end: every pin or unpin that [run] ever issues was asked for
    by a notification of the stream whose sender is in the list that
    [following] returned at start-up, and its target is the post that
    notification replies to. *)
Theorem run_pins_only_for_followed
    (c : Config) (stream : list Notification) (w : World) :
  exists evs,
    snd (run env c stream w) = w ++ evs
    /\ forall target,
         CallPin target ∈ evs \/ CallUnpin target ∈ evs ->
         exists account users notification,
           me_result env = Ok account
           /\ following_result env (acc_id account) = Ok users
           /\ notification ∈ stream
           /\ acc_id (notif_account notification) ∈ List.map acc_id users
           /\ st_in_reply_to_id (notif_status notification) = Some target.
Proof.
  unfold run, mbind, M_bind, bind, pleroma_me, pleroma_following, call.
  destruct (me_result env) as [account|e] eqn:Hme.
  2: { exists [CallMe]. split; [done | no_pin_among]. }
  destruct (following_result env (acc_id account)) as [users|e] eqn:Husers.
  2: { exists [CallMe; CallFollowing (acc_id account)].
       split; [by rewrite <- app_assoc | no_pin_among]. }
  match goal with |- context [run_loop env ?bot stream ?w0] =>
    destruct (run_loop_events bot stream w0) as (evs & -> & Hpins) end.
  exists (CallMe :: CallFollowing (acc_id account) :: evs).
  split; [by rewrite <- !app_assoc |].
  intros target [Hin|Hin];
    (apply elem_of_cons in Hin as [?|Hin]; [done |]);
    (apply elem_of_cons in Hin as [?|Hin]; [done |]);
    (destruct (Hpins target) as (n & Hn & Hfollowed & Hreply); [auto |]);
    exists account, users, n; simpl in Hfollowed;
    rewrite elem_of_list_to_set in Hfollowed; done.
Qed.

(** X13: Start-up is fatal: when [me] or [following] raises, [run] raises
    the same error and no notification of the stream is looked at. *)
Theorem run_startup_failure
    (c : Config) (stream : list Notification) (w : World) (e : exc) :
  (me_result env = Raise e ->
   run env c stream w = (Raise e, w ++ [CallMe]))
  /\ (forall account,
        me_result env = Ok account ->
        following_result env (acc_id account) = Raise e ->
        run env c stream w
        = (Raise e, w ++ [CallMe; CallFollowing (acc_id account)])).
Proof.
  unfold run, mbind, M_bind, bind, pleroma_me, pleroma_following, call.
  split.
  - by intros ->.
  - intros account -> ->. by rewrite <- app_assoc.
Qed.

(** X14: While the server answers HTTP 500 to every context fetch, the loop
    still goes through the whole stream: each notification costs three
    fetches, two sleeps and one printed line, and [run_loop] returns. *)
Theorem run_loop_all_transient
    (self : ReplyBot) (stream : list Notification) (w : World) :
  (forall attempt id, status_context_result env attempt id = Raise BadResponse) ->
  run_loop env self stream w = (Ok tt, w ++ flat_map abandoned stream).
Proof.
  intros Hfail. revert w.
  induction stream as [|notification stream IH]; intros w.
  { simpl. by rewrite app_nil_r. }
  rewrite run_loop_cons, process_notification_all_transient by done.
  rewrite IH. simpl flat_map. by rewrite <- app_assoc.
Qed.

(** X15: With [strip_paired_punctuation] set and [PAIRED_PUNCTUATION] unbound,
    [reply] raises [NameError] after the text has been generated, and
    posts nothing. *)
Theorem reply_name_error
    (self : ReplyBot) (notification : Notification) (w : World) (toot : pystr) :
  strip_paired_punctuation (cfg self) = true ->
  PAIRED_PUNCTUATION = None ->
  make_post_result env (calls is_make_post w) (cfg self) = Ok toot ->
  reply env self notification w
  = (Raise (NameError "PAIRED_PUNCTUATION"), w ++ [CallMakePost (cfg self)]).
Proof.
  intros Hstrip Hunbound Hpost.
  unfold reply, mbind, M_bind, bind, make_post, call, lift, sanitize.
  by rewrite Hpost, Hstrip, Hunbound.
Qed.

End LoopFacts.

(** ** Text *)

Lemma span_spec {A} (p : A -> bool) (l run rest : list A) :
  span p l = (run, rest) ->
  l = run ++ rest /\ forallb p run = true
  /\ match rest with [] => True | x :: _ => p x = false end.
Proof.
  revert run rest. induction l as [|x l IH]; intros run rest; simpl.
  - by intros [= <- <-].
  - destruct (p x) eqn:Hx.
    + destruct (span p l) as [run' rest']. intros [= <- <-].
      destruct (IH run' rest' eq_refl) as (-> & Hrun & Hrest).
      simpl. by rewrite Hx, Hrun.
    + intros [= <- <-]. by rewrite Hx.
Qed.

(** X16: The substitution of [extract_toot] removes something exactly when
    the text is an ['@'], a non-empty run of non-space characters and a
    space character, followed by anything; what is left is then what
    follows that space.  A text that is only a mention, or that does not
    begin with ['@'], is returned as it is. *)
Theorem sub_initial_mention_spec (text : pystr) :
  (exists handle space rest,
     text = AT :: handle ++ space :: rest
     /\ handle <> []
     /\ forallb (fun c => negb (is_space c)) handle = true
     /\ is_space space = true
     /\ sub_initial_mention text = rest)
  \/ ((~ exists handle space rest,
         text = AT :: handle ++ space :: rest
         /\ handle <> []
         /\ forallb (fun c => negb (is_space c)) handle = true
         /\ is_space space = true)
      /\ sub_initial_mention text = text).
Proof.
  destruct text as [|c after_at].
  { right. split; [by intros (? & ? & ? & ? & _) | done]. }
  unfold sub_initial_mention.
  destruct (N.eqb_spec c AT) as [->|Hc].
  2: { right. split; [intros (? & ? & ? & [= ? _] & _); done | done]. }
  destruct (span _ after_at) as [run rest] eqn:Hspan.
  assert (Hunique : forall handle space rest',
             after_at = handle ++ space :: rest' ->
             forallb (fun c => negb (is_space c)) handle = true ->
             is_space space = true ->
             run = handle /\ rest = space :: rest').
  { intros handle space rest' -> Hhandle Hspace.
    rewrite span_run in Hspan by (by rewrite ?Hspace).
    by injection Hspan as <- <-. }
  pose proof (span_spec _ _ _ _ Hspan) as (Hsplit & Hrun & Hrest).
  destruct run as [|r run], rest as [|space rest].
  4: { left. exists (r :: run), space, rest.
       apply negb_false_iff in Hrest. by rewrite Hsplit. }
  all: right; split; [| done];
    intros (handle & space' & rest' & [= Heq] & Hne & Hhandle & Hspace);
    destruct (Hunique _ _ _ Heq Hhandle Hspace) as [<- ?]; done.
Qed.

(** X17: A command is recognized whatever its case: when the extracted
    content is a mention followed by ASCII text that lowercases to
    ["pin"] or ["unpin"], the notification takes the command path. *)
Theorem extract_toot_command_any_case
    {utils : Utils} (toot handle word : pystr) (space : N) :
  extract_post_content toot = AT :: handle ++ space :: word ->
  handle <> [] ->
  forallb (fun c => negb (is_space c)) handle = true ->
  is_space space = true ->
  forallb is_ascii word = true ->
  List.map ascii_lower word ∈ COMMANDS ->
  extract_toot toot ∈ COMMANDS.
Proof.
  intros Hcontent Hne Hrun Hspace Hascii Hcommand.
  unfold extract_toot. rewrite Hcontent, sub_initial_mention_token by done.
  unfold lower. by rewrite Hascii.
Qed.

Lemma replace_at_app toot1 toot2 :
  replace_at (toot1 ++ toot2) = replace_at toot1 ++ replace_at toot2.
Proof. unfold replace_at. apply flat_map_app. Qed.

(** X18: The ['@'] rewriting loses nothing: it adds one character for every
    ['@'], and deleting every U+200B from its result gives back a text
    that held no U+200B. *)
Theorem replace_at_round_trip (toot : pystr) :
  length (replace_at toot)
  = (length toot + length (filter (fun c => c = AT) toot))%nat
  /\ (ZWSP ∉ toot ->
      filter (fun c => c <> ZWSP) (replace_at toot) = toot).
Proof.
  split.
  - induction toot as [|c toot IH]; [done |].
    rewrite replace_at_cons, length_app, IH, filter_cons.
    destruct (N.eqb_spec c AT); case_decide; try done; simpl; lia.
  - induction toot as [|c toot IH]; [done |].
    rewrite not_elem_of_cons. intros [Hc Hrest].
    destruct (N.eqb_spec c AT) as [->|Hat].
    + change (replace_at (AT :: toot)) with (AT :: ZWSP :: replace_at toot).
      rewrite filter_cons_True by done.
      rewrite filter_cons_False by (by intros ?).
      by rewrite IH.
    + rewrite replace_at_cons. apply N.eqb_neq in Hat as ->. simpl app.
      rewrite filter_cons_True by congruence.
      by rewrite IH.
Qed.

(** ** Further runs on the concrete inputs *)

Section MoreRuns.
#[local] Existing Instance plain_utils.

Lemma check_thread_length_permutation_witness :
  check_thread_length bot_two
    {| ancestors := [own_post (str "1"); stranger_post; own_post (str "3")] |}
  = check_thread_length bot_two
      {| ancestors := [stranger_post; own_post (str "3"); own_post (str "1")] |}.
Proof.
  apply (check_thread_length_permutation bot_two
           [own_post (str "1"); stranger_post; own_post (str "3")]
           [stranger_post; own_post (str "3"); own_post (str "1")]).
  apply (Permutation_app_comm [own_post (str "1")]
           [stranger_post; own_post (str "3")]).
Defined.

Lemma check_thread_length_grows_witness :
  check_thread_length bot_two
    {| ancestors := [stranger_post]
                    ++ [own_post (str "1"); own_post (str "3")]
                    ++ [stranger_post] |} = true.
Proof.
  apply (check_thread_length_grows bot_two [stranger_post]
           [own_post (str "1"); own_post (str "3")] [stranger_post]).
  reflexivity.
Defined.

Lemma check_thread_length_no_own_post_witness :
  check_thread_length bot_two
    {| ancestors := [stranger_post; stranger_post; stranger_post] |} = false.
Proof.
  apply (check_thread_length_no_own_post bot_two
           {| ancestors := [stranger_post; stranger_post; stranger_post] |}).
  - simpl. lia.
  - intros post Hin. simpl in Hin.
    repeat (apply elem_of_cons in Hin as [->|Hin]; [discriminate |]).
    by apply elem_of_nil in Hin.
Defined.

Lemma process_command_success_witness :
  process_command env_quiet bot_two {| ancestors := [stranger_post] |}
    unpin_by_alice (str "unpin") []
  = (Ok tt, [CallUnpin (str "1"); CallReact (str "203") CHECK_MARK]).
Proof.
  apply (process_command_success env_quiet bot_two
           {| ancestors := [stranger_post] |} unpin_by_alice (str "unpin") []
           (str "1")).
  - by apply (bool_decide_eq_true_1 _).
  - reflexivity.
  - exists stranger_post. split; [left | reflexivity].
  - reflexivity.
Defined.

Lemma process_command_other_error_witness :
  process_command env_pin_500 bot_two {| ancestors := [stranger_post] |}
    pin_by_alice (str "pin") []
  = (Raise BadResponse, [CallPin (str "1")]).
Proof.
  apply (process_command_other_error env_pin_500 bot_two
           {| ancestors := [stranger_post] |} pin_by_alice (str "pin") []
           (str "1") BadResponse).
  - by apply (bool_decide_eq_true_1 _).
  - reflexivity.
  - discriminate.
  - reflexivity.
Defined.

Lemma process_command_rejected_witness :
  process_command env_pin_rejected bot_two {| ancestors := [stranger_post] |}
    pin_by_alice (str "pin") []
  = (Ok tt,
     [CallPin (str "1");
      TaskGroup
        [StartReact (str "202") CROSS_MARK;
         StartReply (notif_status pin_by_alice)
           (str "Error: already pinned") None]]).
Proof.
  apply (process_command_rejected env_pin_rejected bot_two
           {| ancestors := [stranger_post] |} pin_by_alice (str "pin") []
           (str "1") (str "already pinned")).
  - by apply (bool_decide_eq_true_1 _).
  - reflexivity.
  - reflexivity.
Defined.

Lemma process_notification_gate_drops_witness :
  process_notification env_deep bot_two hello_100 0 []
  = (Ok tt, [CallStatusContext (str "100")]).
Proof.
  apply (process_notification_gate_drops env_deep bot_two hello_100 0 []
           deep_thread); reflexivity.
Defined.

Lemma run_pins_only_for_followed_witness :
  exists account users notification,
    me_result env_quiet = Ok account
    /\ following_result env_quiet (acc_id account) = Ok users
    /\ notification ∈ [hello_100; pin_by_mallory; pin_by_alice]
    /\ acc_id (notif_account notification) ∈ List.map acc_id users
    /\ st_in_reply_to_id (notif_status notification) = Some (str "1").
Proof.
  destruct (run_pins_only_for_followed
              (with_status_context
                 (fun _ _ => Ok {| ancestors := [stranger_post] |}) env_quiet)
              cfg_two [hello_100; pin_by_mallory; pin_by_alice] [])
    as (evs & Hlog & Hpins).
  vm_compute in Hlog. subst evs.
  apply (Hpins (str "1")). left.
  repeat first [apply list_elem_of_here | apply list_elem_of_further].
Defined.

Lemma run_startup_failure_witness :
  run env_no_identity cfg_two [hello_100] [] = (Raise BadResponse, [CallMe])
  /\ run env_no_following cfg_two [hello_100] []
     = (Raise BadResponse, [CallMe; CallFollowing (str "42")]).
Proof.
  split.
  - apply (proj1 (run_startup_failure env_no_identity cfg_two [hello_100] []
                    BadResponse)). reflexivity.
  - apply (proj2 (run_startup_failure env_no_following cfg_two [hello_100] []
                    BadResponse) bot_account); reflexivity.
Defined.

Lemma run_loop_all_transient_witness :
  run_loop env_always_500 bot_two [hello_100; hello_101] []
  = (Ok tt, abandoned hello_100 ++ abandoned hello_101 ++ []).
Proof.
  apply (run_loop_all_transient env_always_500 bot_two
           [hello_100; hello_101] []).
  intros attempt id. reflexivity.
Defined.

Lemma reply_name_error_witness :
  reply env_quiet bot_strip hello_100 []
  = (Raise (NameError "PAIRED_PUNCTUATION"), [CallMakePost cfg_strip]).
Proof.
  apply (reply_name_error env_quiet bot_strip hello_100 [] (str "hello"));
    reflexivity.
Defined.

Lemma extract_toot_command_any_case_witness :
  extract_toot (str "@bot UnPin") ∈ COMMANDS.
Proof.
  apply (extract_toot_command_any_case (str "@bot UnPin") (str "bot")
           (str "UnPin") 32%N);
    first [reflexivity | discriminate | by apply (bool_decide_eq_true_1 _)].
Defined.

Lemma replace_at_round_trip_witness :
  filter (fun c => c <> ZWSP) (replace_at (str "hi @alice and @bob"))
  = str "hi @alice and @bob".
Proof.
  apply (proj2 (replace_at_round_trip (str "hi @alice and @bob"))).
  by apply (bool_decide_eq_false_1 _).
Defined.

End MoreRuns.
